(** * Automobile supply chain gateway: the order transition handlers of app.py

    A shallow embedding of the five request handlers of [app.py]
    ([create_order], [deposit_funds], [mark_shipped], [confirm_delivery],
    [get_order]) over an explicit chain client, together with the unit
    conversions of the web3 library they call, and the properties of the
    transaction-submission discipline proved about them. *)

From Stdlib Require Import ZArith Lia List Bool Ascii String.
From stdpp Require Import base gmap strings.
Import ListNotations.

Set Warnings "-register-all".
Local Open Scope string_scope.
Local Open Scope Z_scope.

(** ** Python values *)

(** A finite [decimal.Decimal]: sign, coefficient and exponent, as in
    [Decimal.as_tuple()]; its value is [(-1)^sign * coefficient * 10^exponent]. *)
Record Decimal : Type := mkDecimal {
  d_sign : bool;
  d_int : Z;
  d_exp : Z
}.

(** The values a decoded JSON body, a contract call and a response carry.
    A float is carried by the text [str] prints for it (its shortest
    repr), which is what [to_wei] reads of a float. *)
Inductive pyval : Type :=
  | PNone
  | PBool (b : bool)
  | PInt (z : Z)
  | PFloat (repr : string)
  | PStr (s : string)
  | PDecimal (d : Decimal)
  | PList (l : list pyval)
  | PDict (l : list (string * pyval)).

(** Python truth value testing, as [not x] reads it. *)
Definition truthy (v : pyval) : bool :=
  match v with
  | PNone => false
  | PBool b => b
  | PInt z => negb (z =? 0)
  | PFloat r => negb (String.eqb r "0.0" || String.eqb r "-0.0")
  | PStr s => negb (String.eqb s "")
  | PDecimal d => negb (d_int d =? 0)
  | PList l => match l with [] => false | _ => true end
  | PDict l => match l with [] => false | _ => true end
  end.

(** ** Exceptions *)

(** An instance of a subclass of [Exception]: its class and what [str(e)]
    returns. *)
Record exn : Type := mkExn {
  exn_class : string;
  exn_str : string
}.

Inductive result (A : Type) : Type :=
  | Ok (a : A)
  | Raise (e : exn).
Arguments Ok {A} a.
Arguments Raise {A} e.

Definition TypeError (msg : string) : exn := mkExn "TypeError" msg.
Definition ValueError (msg : string) : exn := mkExn "ValueError" msg.
Definition IndexError (msg : string) : exn := mkExn "IndexError" msg.
Definition InvalidOperation : exn :=
  mkExn "decimal.InvalidOperation" "[<class 'decimal.ConversionSyntax'>]".
Definition Overflow : exn :=
  mkExn "decimal.Overflow" "[<class 'decimal.Overflow'>]".

(** ** Decimal arithmetic of the [decimal] module, as [to_wei] and
       [from_wei] use it *)

Module Dec.

(** Number of decimal digits of a coefficient ([len(self._int)]). *)
Fixpoint ndigits_fuel (fuel : nat) (c : Z) : Z :=
  match fuel with
  | O => 1
  | S f => if c <? 10 then 1 else 1 + ndigits_fuel f (c / 10)
  end.

Definition ndigits (c : Z) : Z := ndigits_fuel (Z.to_nat (Z.log2 c)) c.

Definition is_zero (d : Decimal) : bool := d_int d =? 0.

(** The signed coefficient. *)
Definition signed (d : Decimal) : Z :=
  if d_sign d then - d_int d else d_int d.

(** Numeric comparison: both coefficients are brought to the smaller
    exponent. *)
Definition scaled (d : Decimal) (e : Z) : Z := signed d * 10 ^ (d_exp d - e).

Definition eqb (a b : Decimal) : bool :=
  let e := Z.min (d_exp a) (d_exp b) in scaled a e =? scaled b e.

Definition ltb (a b : Decimal) : bool :=
  let e := Z.min (d_exp a) (d_exp b) in scaled a e <? scaled b e.

Definition of_Z (z : Z) : Decimal := mkDecimal (z <? 0) (Z.abs z) 0.

(** [Decimal._fix]: round the coefficient to [prec] significant digits,
    ties to even ([ROUND_HALF_EVEN], the default rounding). *)
Definition fix_prec (prec : Z) (d : Decimal) : Decimal :=
  let n := ndigits (d_int d) in
  if (n <=? prec) || is_zero d then d
  else
    let k := n - prec in
    let q := d_int d / 10 ^ k in
    let r := d_int d mod 10 ^ k in
    let half := 5 * 10 ^ (k - 1) in
    let q' := if (half <? r) || ((r =? half) && Z.odd q) then q + 1 else q in
    if ndigits q' <=? prec
    then mkDecimal (d_sign d) q' (d_exp d + k)
    else mkDecimal (d_sign d) (q' / 10) (d_exp d + k + 1).

Definition Emax : Z := 999999.

(** Exponent of the most significant digit. *)
Definition adjusted (d : Decimal) : Z := d_exp d + ndigits (d_int d) - 1.

(** [a * b] in a context of precision [prec]; a result above [Emax]
    signals [Overflow], which the default context traps. *)
Definition mul (prec : Z) (a b : Decimal) : result Decimal :=
  let p := mkDecimal (xorb (d_sign a) (d_sign b)) (d_int a * d_int b)
                     (d_exp a + d_exp b) in
  let r := fix_prec prec p in
  if negb (is_zero r) && (Emax <? adjusted r) then Raise Overflow else Ok r.

(** Remove trailing zeros of an exact quotient while the exponent is below
    the ideal exponent. *)
Fixpoint strip_to (fuel : nat) (ideal c e : Z) : Z * Z :=
  match fuel with
  | O => (c, e)
  | S f => if (e <? ideal) && (c mod 10 =? 0) && negb (c =? 0)
           then strip_to f ideal (c / 10) (e + 1) else (c, e)
  end.

(** [a / 10**k] for a power of ten, which is all the unit table holds: the
    quotient is exact, and division moves it as close to the ideal
    exponent [d_exp a] as its trailing zeros allow. *)
Definition div_pow10 (a : Decimal) (k : Z) : Decimal :=
  let '(c, e) := strip_to (Z.to_nat k) (d_exp a) (d_int a) (d_exp a - k) in
  mkDecimal (d_sign a) c e.

(** [int(d)]: truncation toward zero. *)
Definition to_int (d : Decimal) : Z :=
  let m := if 0 <=? d_exp d then d_int d * 10 ^ d_exp d
           else d_int d / 10 ^ (- d_exp d) in
  if d_sign d then - m else m.

End Dec.

(** ** Numeric strings: [decimal.Decimal(value=s)] *)

Module Numeral.

Definition code (c : ascii) : Z := Z.of_nat (nat_of_ascii c).

Definition is_digit (c : ascii) : bool := (48 <=? code c) && (code c <=? 57).

(** [str.isspace] on ASCII characters. *)
Definition is_space (c : ascii) : bool :=
  ((9 <=? code c) && (code c <=? 13)) || ((28 <=? code c) && (code c <=? 32)).

Definition is_char (x : ascii) (c : ascii) : bool := Ascii.eqb x c.

Definition lower (c : ascii) : ascii :=
  if (65 <=? code c) && (code c <=? 90)
  then ascii_of_nat (nat_of_ascii c + 32) else c.

Fixpoint span (p : ascii -> bool) (l : list ascii) : list ascii * list ascii :=
  match l with
  | [] => ([], [])
  | c :: r => if p c then let '(a, b) := span p r in (c :: a, b) else ([], l)
  end.

Fixpoint drop_while (p : ascii -> bool) (l : list ascii) : list ascii :=
  match l with
  | [] => []
  | c :: r => if p c then drop_while p r else l
  end.

(** [value.strip().replace("_", "")] *)
Definition clean (l : list ascii) : list ascii :=
  let stripped := rev (drop_while is_space (rev (drop_while is_space l))) in
  List.filter (fun c => negb (is_char "_" c)) stripped.

(** [int(digits)] of a run of decimal digits. *)
Definition int_of_digits (ds : list ascii) : Z :=
  fold_left (fun acc c => 10 * acc + (code c - 48)) ds 0.

Definition take_sign (l : list ascii) : bool * list ascii :=
  match l with
  | c :: r => if is_char "-" c then (true, r)
              else if is_char "+" c then (false, r) else (false, l)
  | [] => (false, l)
  end.

(** The exponent part [E[-+]?\d+], when the rest of the numeral is one. *)
Definition exponent (l : list ascii) : option Z :=
  match l with
  | [] => Some 0
  | c :: r =>
      if is_char "e" (lower c) then
        let '(neg, ds) := take_sign r in
        match ds with
        | [] => None
        | _ => if forallb is_digit ds
               then Some (if neg then - int_of_digits ds else int_of_digits ds)
               else None
        end
      else None
  end.

(** What the constructor makes of a string. *)
Inductive parsed : Type :=
  | Finite (d : Decimal)
  | Infinity (neg : bool)
  | NaN
  | Invalid.

Definition special (neg : bool) (l : list ascii) : parsed :=
  let w := string_of_list_ascii (List.map lower l) in
  if String.eqb w "inf" || String.eqb w "infinity" then Infinity neg
  else
    let body := match List.map lower l with
                | c :: r => if is_char "s" c then r else c :: r
                | [] => []
                end in
    match body with
    | n :: a :: n' :: diag =>
        if is_char "n" n && is_char "a" a && is_char "n" n'
           && forallb is_digit diag
        then NaN else Invalid
    | _ => Invalid
    end.

(** The numeric-string grammar of the [decimal] module: an optional sign,
    then digits with an optional fractional part (at least one digit in
    all) and an optional exponent, or an infinity, or a NaN. The
    coefficient is [int(intpart + fracpart)] and the exponent
    [exp - len(fracpart)]. *)
Definition parse (s : string) : parsed :=
  let '(neg, body) := take_sign (clean (list_ascii_of_string s)) in
  let '(intpart, rest) := span is_digit body in
  let '(fracpart, rest') :=
    match rest with
    | c :: r => if is_char "." c then span is_digit r else ([], rest)
    | [] => ([], rest)
    end in
  match intpart, fracpart with
  | [], [] => special neg body
  | _, _ =>
      match exponent rest' with
      | Some e => Finite (mkDecimal neg (int_of_digits (intpart ++ fracpart))
                                    (e - Z.of_nat (List.length fracpart)))
      | None => Invalid
      end
  end.

(** [len(s) - s.index(".") - 1] when ["." in s]: the number of characters
    after the first point. *)
Fixpoint after_point (l : list ascii) : option Z :=
  match l with
  | [] => None
  | c :: r => if is_char "." c then Some (Z.of_nat (List.length r))
              else after_point r
  end.

End Numeral.

(** ** Unit conversion: [w3.to_wei] and the inverse conversion *)

Module Currency.

(** The unit table: each denomination is a power of ten of wei. *)
Definition units (unit : string) : option Z :=
  let named := String.eqb unit in
  if named "wei" then Some 0
  else if named "kwei" || named "babbage" || named "femtoether" then Some 3
  else if named "mwei" || named "lovelace" || named "picoether" then Some 6
  else if named "gwei" || named "shannon" || named "nanoether" || named "nano" then Some 9
  else if named "szabo" || named "microether" || named "micro" then Some 12
  else if named "finney" || named "milliether" || named "milli" then Some 15
  else if named "ether" then Some 18
  else if named "kether" || named "grand" then Some 21
  else if named "mether" then Some 24
  else if named "gether" then Some 27
  else if named "tether" then Some 30
  else None.

Definition lower (s : string) : string :=
  string_of_list_ascii (List.map Numeral.lower (list_ascii_of_string s)).

Definition MIN_WEI : Z := 0.
Definition MAX_WEI : Z := 2 ^ 256 - 1.

Definition unknown_unit : exn := ValueError "Unknown unit.".
Definition out_of_range : exn :=
  ValueError "Resulting wei value must be between 1 and 2**256 - 1".

(** Characters after the point in [str(d)] for a Decimal [d], when it has
    one: [str] writes [d] without exponent when [d_exp d <= 0] and the
    point has at most five zeros after it, and in scientific notation
    otherwise. *)
Definition after_point_decimal (d : Decimal) : option Z :=
  let n := Dec.ndigits (d_int d) in
  let leftdigits := d_exp d + n in
  if (d_exp d <=? 0) && (-6 <? leftdigits) then
    if d_exp d <? 0 then Some (- d_exp d) else None
  else if n =? 1 then None
  else Some (n - 1 + (if leftdigits =? 1 then 0
                      else 2 + Dec.ndigits (Z.abs (leftdigits - 1)))).

(** [d_number] and the characters after the point of [s_number], by the
    type of [number]: an integer or a string goes through the Decimal
    constructor, a float through [str]; booleans and everything else are
    refused. *)
Definition read_number (number : pyval) : result (Numeral.parsed * option Z) :=
  match number with
  | PInt z => Ok (Numeral.Finite (Dec.of_Z z), None)
  | PStr s | PFloat s =>
      Ok (Numeral.parse s, Numeral.after_point (list_ascii_of_string s))
  | PDecimal d => Ok (Numeral.Finite d, after_point_decimal d)
  | _ => Raise (TypeError
           "Unsupported type.  Must be one of integer, float, or string")
  end.

(** The conversion of a finite, non-zero [d_number]. A value below 1
    written with a point is first scaled by the number of characters
    after the point, at that precision; the product with the unit is
    taken at precision 999, checked against the wei range, and truncated
    by [int]. (For a float below 1 the library rescales the binary value
    rounded to the printed digits; the model rescales the printed
    decimal.) *)
Definition convert (d : Decimal) (point : option Z) (u : Z) : result Z :=
  let unit_value := mkDecimal false (10 ^ u) 0 in
  let rescaled :=
    match point with
    | Some multiplier =>
        if Dec.ltb d (Dec.of_Z 1) then
          if multiplier <? 1
          then Raise (ValueError "valid range for prec is [1, MAX_PREC]")
          else match Dec.mul multiplier d (Dec.of_Z (10 ^ multiplier)) with
               | Ok d' => Ok (d', Dec.div_pow10 unit_value multiplier)
               | Raise e => Raise e
               end
        else Ok (d, unit_value)
    | None => Ok (d, unit_value)
    end in
  match rescaled with
  | Raise e => Raise e
  | Ok (d', unit_value') =>
      match Dec.mul 999 d' unit_value' with
      | Raise e => Raise e
      | Ok result_value =>
          if Dec.ltb result_value (Dec.of_Z MIN_WEI)
             || Dec.ltb (Dec.of_Z MAX_WEI) result_value
          then Raise out_of_range
          else Ok (Dec.to_int result_value)
      end
  end.

(** [w3.to_wei(number, unit)] *)
Definition to_wei (number : pyval) (unit : string) : result Z :=
  match units (lower unit) with
  | None => Raise unknown_unit
  | Some u =>
      match read_number number with
      | Raise e => Raise e
      | Ok (Numeral.Invalid, _) => Raise InvalidOperation
      | Ok (Numeral.NaN, _) => Raise InvalidOperation
      | Ok (Numeral.Infinity _, _) => Raise out_of_range
      | Ok (Numeral.Finite d, point) =>
          if Dec.is_zero d then Ok 0 else convert d point u
      end
  end.

(** The inverse conversion of an integer number of wei, [from_wei]: zero
    stays the integer 0, anything else in the wei range is divided by the
    unit at precision 999. *)
Definition from_wei (number : Z) (unit : string) : result pyval :=
  match units (lower unit) with
  | None => Raise unknown_unit
  | Some u =>
      if number =? 0 then Ok (PInt 0)
      else if (number <? MIN_WEI) || (MAX_WEI <? number)
      then Raise (ValueError "value must be between 1 and 2**256 - 1")
      else Ok (PDecimal (Dec.div_pow10 (Dec.of_Z number) u))
  end.

(** Python's [==] between the numbers the conversions take and return. *)
Definition num_eqb (a b : pyval) : bool :=
  match a, b with
  | PInt x, PInt y => x =? y
  | PInt x, PDecimal d | PDecimal d, PInt x => Dec.eqb d (Dec.of_Z x)
  | PDecimal d, PDecimal d' => Dec.eqb d d'
  | _, _ => false
  end.

End Currency.

(** ** The chain client, the signing context and the contract *)

(** [contract.functions.name(args)]: a contract function bound to its
    arguments, the call a transaction encodes. *)
Record fcall : Type := mkCall {
  fn_name : string;
  fn_args : list pyval
}.

(** The transaction [build_transaction] returns: the dictionary it was
    given, completed with the contract address, the encoded call and a
    zero value when none was given. *)
Record transaction : Type := mkTransaction {
  tx_to : string;
  tx_data : fcall;
  tx_fields : gmap string pyval
}.

(** What the handlers reach through [w3], [contract] and [account]. The
    remote operations act on the state of the node; the ABI check, the
    envelope check and the signature are local. Every operation may raise.
    [cl_fromWei] is the attribute [w3.fromWei] that [get_order] reads: the
    conversion the client has under that name, or the exception the
    lookup raises. *)
Record ChainClient : Type := {
  node : Type;
  cl_get_transaction_count : string -> node -> result Z * node;
  cl_chain_id : node -> result Z * node;
  cl_gas_price : node -> result Z * node;
  cl_estimate_gas : fcall -> gmap string pyval -> node -> result Z * node;
  cl_send_raw_transaction : string -> node -> result string * node;
  cl_call : fcall -> node -> result (list pyval) * node;
  cl_abi_check : fcall -> option exn;
  cl_build_check : fcall -> gmap string pyval -> option exn;
  cl_sign_transaction : transaction -> result string;
  cl_fromWei : result (pyval -> string -> result pyval);
  cl_hex : string -> string
}.

(** The module-level configuration read from the environment. *)
Record config : Type := {
  account_address : string;
  CONTRACT_ADDRESS : string;
  ISO_CID : option string
}.

(** One interaction with the chain client or the signing context, with
    what it was given and what it answered. *)
Inductive event : Type :=
  | GetTransactionCount (address : string) (r : result Z)
  | FunctionCall (name : string) (args : list pyval) (r : result fcall)
  | ChainId (r : result Z)
  | GasPrice (r : result Z)
  | EstimateGas (f : fcall) (tx : gmap string pyval) (r : result Z)
  | BuildTransaction (f : fcall) (tx : gmap string pyval) (r : result transaction)
  | SignTransaction (tx : transaction) (r : result string)
  | SendRawTransaction (raw : string) (r : result string)
  | Call (f : fcall) (r : result (list pyval)).

(** The exception an interaction ended with, if it raised. *)
Definition raised {A : Type} (r : result A) : option exn :=
  match r with Ok _ => None | Raise e => Some e end.

Definition event_raised (ev : event) : option exn :=
  match ev with
  | GetTransactionCount _ r | ChainId r | GasPrice r | EstimateGas _ _ r => raised r
  | FunctionCall _ _ r => raised r
  | BuildTransaction _ _ r => raised r
  | SignTransaction _ r | SendRawTransaction _ r => raised r
  | Call _ r => raised r
  end.

(** The state a handler runs in: the node, and the interactions so far,
    oldest first. *)
Record world (C : ChainClient) : Type := mkWorld {
  w_node : node C;
  w_trace : list event
}.
Arguments mkWorld {C} w_node w_trace.
Arguments w_node {C} w.
Arguments w_trace {C} w.

Definition start {C : ChainClient} (n : node C) : world C := mkWorld n [].

(** ** Handlers as state-and-exception computations *)

Definition M (C : ChainClient) (A : Type) : Type := world C -> result A * world C.

Definition ret {C : ChainClient} {A : Type} (a : A) : M C A := fun w => (Ok a, w).

Definition bind {C : ChainClient} {A B : Type} (m : M C A) (k : A -> M C B) : M C B :=
  fun w => match m w with
           | (Ok a, w') => k a w'
           | (Raise e, w') => (Raise e, w')
           end.

(** [try: m except Exception as e: h e] *)
Definition try_except {C : ChainClient} {A : Type} (m : M C A) (h : exn -> M C A) : M C A :=
  fun w => match m w with
           | (Ok a, w') => (Ok a, w')
           | (Raise e, w') => h e w'
           end.

(** A computation without interaction, such as a unit conversion. *)
Definition pure {C : ChainClient} {A : Type} (r : result A) : M C A := fun w => (r, w).

(** A remote operation: it steps the node and is recorded. *)
Definition remote {C : ChainClient} {A : Type}
    (op : node C -> result A * node C) (ev : result A -> event) : M C A :=
  fun w => let '(r, n') := op (w_node w) in
           (r, mkWorld n' (w_trace w ++ [ev r])).

(** A local operation of the client: it is recorded. *)
Definition local {C : ChainClient} {A : Type}
    (r : result A) (ev : result A -> event) : M C A :=
  fun w => (r, mkWorld (w_node w) (w_trace w ++ [ev r])).

Declare Scope handler_scope.
Delimit Scope handler_scope with handler.
Notation "x <- m ;; k" := (bind m (fun x => k))
  (at level 100, m at next level, right associativity) : handler_scope.

Section Handlers.

Context (C : ChainClient) (cfg : config).

Local Open Scope handler_scope.

(** *** The operations the handlers call *)

(** [w3.eth.get_transaction_count(address)] *)
Definition get_transaction_count (address : string) : M C Z :=
  remote (cl_get_transaction_count C address) (GetTransactionCount address).

(** [w3.eth.chain_id] *)
Definition chain_id : M C Z := remote (cl_chain_id C) ChainId.

(** [w3.eth.gas_price] *)
Definition gas_price : M C Z := remote (cl_gas_price C) GasPrice.

(** [contract.functions.name(args)]: the arguments are checked against
    the ABI when the function object is made. *)
Definition contract_function (name : string) (args : list pyval) : M C fcall :=
  let f := mkCall name args in
  local (match cl_abi_check C f with Some e => Raise e | None => Ok f end)
        (FunctionCall name args).

(** [f.estimate_gas(tx)] *)
Definition estimate_gas (f : fcall) (tx : gmap string pyval) : M C Z :=
  remote (cl_estimate_gas C f tx) (EstimateGas f tx).

(** [f.build_transaction(tx)]: with chain id, gas, gas price and nonce
    given, nothing is looked up; the value defaults to 0. *)
Definition build_transaction (f : fcall) (tx : gmap string pyval) : M C transaction :=
  local (match cl_build_check C f tx with
         | Some e => Raise e
         | None =>
             Ok (mkTransaction (CONTRACT_ADDRESS cfg) f
                   (match tx !! "value" with
                    | Some _ => tx
                    | None => <["value" := PInt 0]> tx
                    end))
         end)
        (BuildTransaction f tx).

(** [account.sign_transaction(tx)], read at [.raw_transaction] *)
Definition sign_transaction (tx : transaction) : M C string :=
  local (cl_sign_transaction C tx) (SignTransaction tx).

(** [w3.eth.send_raw_transaction(raw)] *)
Definition send_raw_transaction (raw : string) : M C string :=
  remote (cl_send_raw_transaction C raw) (SendRawTransaction raw).

(** [f.call()] *)
Definition call (f : fcall) : M C (list pyval) :=
  remote (cl_call C f) (Call f).

(** [data.get(key)] on the decoded JSON object. *)
Definition dict_get (data : gmap string pyval) (key : string) : pyval :=
  match data !! key with Some v => v | None => PNone end.

(** [order[i]] *)
Definition subscript (order : list pyval) (i : nat) : result pyval :=
  match nth_error order i with
  | Some v => Ok v
  | None => Raise (IndexError "list index out of range")
  end.

(** *** Responses *)

(** [jsonify(body), status]; a handler that returns no status answers 200. *)
Record response : Type := mkResponse {
  status : Z;
  body : list (string * pyval)
}.

Definition validation_error : response :=
  mkResponse 400 [("error", PStr "Missing required fields")].

Definition chain_error (e : exn) : response :=
  mkResponse 500 [("error", PStr (exn_str e))].

Definition success (tx_hash : string) : response :=
  mkResponse 200 [("status", PStr "success"); ("txHash", PStr (cl_hex C tx_hash))].

(** [f"ipfs://{ISO_CID}"] *)
Definition iso_uri : string :=
  "ipfs://" ++ match ISO_CID cfg with Some cid => cid | None => "None" end.

(** Sign the built transaction, submit it and answer with its hash: the
    three closing statements of every write handler's [try] block. *)
Definition sign_and_send (tx : transaction) : M C response :=
  signed_tx <- sign_transaction tx ;;
  tx_hash <- send_raw_transaction signed_tx ;;
  ret (success tx_hash).

(** *** The handlers *)

(** [POST /createOrder] *)
Definition create_order (data : gmap string pyval) : M C response :=
  let supplier := dict_get data "supplier" in
  let amount_eth := dict_get data "amount" in
  let vin := dict_get data "vin" in
  if negb (truthy supplier) || negb (truthy amount_eth) || negb (truthy vin)
  then ret validation_error
  else
    amount_wei <- pure (Currency.to_wei amount_eth "ether") ;;
    try_except
      (nonce <- get_transaction_count (account_address cfg) ;;
       f <- contract_function "createOrder"
              [supplier; PInt amount_wei; vin; PStr iso_uri] ;;
       cid <- chain_id ;;
       price <- gas_price ;;
       tx <- build_transaction f
               (<["chainId" := PInt cid]>
                (<["gas" := PInt 300000]>
                 (<["gasPrice" := PInt price]>
                  (<["nonce" := PInt nonce]> ∅)))) ;;
       sign_and_send tx)
      (fun e => ret (chain_error e)).

(** [POST /depositFunds] *)
Definition deposit_funds (data : gmap string pyval) : M C response :=
  let order_id := dict_get data "orderId" in
  let amount_eth := dict_get data "amount" in
  if negb (truthy order_id) || negb (truthy amount_eth)
  then ret validation_error
  else
    amount_wei <- pure (Currency.to_wei (PStr "0.5") "ether") ;;
    try_except
      (nonce <- get_transaction_count (account_address cfg) ;;
       f <- contract_function "depositFunds" [order_id] ;;
       gas_estimate <- estimate_gas f
               (<["from" := PStr (account_address cfg)]>
                (<["value" := PInt amount_wei]> ∅)) ;;
       f' <- contract_function "depositFunds" [order_id] ;;
       cid <- chain_id ;;
       price <- pure (Currency.to_wei (PStr "5") "gwei") ;;
       tx <- build_transaction f'
               (<["chainId" := PInt cid]>
                (<["gas" := PInt gas_estimate]>
                 (<["gasPrice" := PInt price]>
                  (<["nonce" := PInt nonce]>
                   (<["value" := PInt amount_wei]> ∅))))) ;;
       sign_and_send tx)
      (fun e => ret (chain_error e)).

(** The body shared, statement for statement, by [mark_shipped] and
    [confirm_delivery], which differ in the contract function only. *)
Definition order_transition (name : string) (data : gmap string pyval) : M C response :=
  let order_id := dict_get data "orderId" in
  if negb (truthy order_id)
  then ret validation_error
  else
    try_except
      (nonce <- get_transaction_count (account_address cfg) ;;
       f <- contract_function name [order_id] ;;
       cid <- chain_id ;;
       price <- gas_price ;;
       tx <- build_transaction f
               (<["chainId" := PInt cid]>
                (<["gas" := PInt 300000]>
                 (<["gasPrice" := PInt price]>
                  (<["nonce" := PInt nonce]> ∅)))) ;;
       sign_and_send tx)
      (fun e => ret (chain_error e)).

(** [POST /markShipped] *)
Definition mark_shipped (data : gmap string pyval) : M C response :=
  order_transition "markShipped" data.

(** [POST /confirmDelivery] *)
Definition confirm_delivery (data : gmap string pyval) : M C response :=
  order_transition "confirmDelivery" data.

(** [GET /getOrder/<int:order_id>] *)
Definition get_order (order_id : Z) : M C response :=
  try_except
    (f <- contract_function "orders" [PInt order_id] ;;
     order <- call f ;;
     o0 <- pure (subscript order 0) ;;
     o1 <- pure (subscript order 1) ;;
     o2 <- pure (subscript order 2) ;;
     fromWei <- pure (cl_fromWei C) ;;
     o3 <- pure (subscript order 3) ;;
     amount <- pure (fromWei o3 "ether") ;;
     o4 <- pure (subscript order 4) ;;
     o5 <- pure (subscript order 5) ;;
     o6 <- pure (subscript order 6) ;;
     ret (mkResponse 200
            [("orderId", o0); ("buyer", o1); ("supplier", o2);
             ("amount", amount); ("state", o4); ("vin", o5);
             ("isoTs16949Doc", o6)]))
    (fun e => ret (chain_error e)).

(** *** The four write transitions *)

Inductive transition : Type :=
  | CreateOrder
  | DepositFunds
  | MarkShipped
  | ConfirmDelivery.

Definition handler (t : transition) : gmap string pyval -> M C response :=
  match t with
  | CreateOrder => create_order
  | DepositFunds => deposit_funds
  | MarkShipped => mark_shipped
  | ConfirmDelivery => confirm_delivery
  end.

(** The fields each handler's guard tests. *)
Definition required (t : transition) : list string :=
  match t with
  | CreateOrder => ["supplier"; "amount"; "vin"]
  | DepositFunds => ["orderId"; "amount"]
  | MarkShipped => ["orderId"]
  | ConfirmDelivery => ["orderId"]
  end.

End Handlers.

(** ** A stub chain client *)

Module Stub.

(** The node counts the transactions it accepted from the signer. *)
Definition order : list pyval :=
  [PInt 1; PStr "0xBuyer"; PStr "0xSupplier"; PInt (5 * 10 ^ 17); PInt 1;
   PStr "VIN123456"; PStr "ipfs://cid"].

Definition fromWei (number : pyval) (unit : string) : result pyval :=
  match number with
  | PInt z => Currency.from_wei z unit
  | _ => Raise (TypeError "unsupported operand")
  end.

(** A client whose every operation succeeds; [revert] makes the node
    reject submissions. *)
Definition client (revert : bool) : ChainClient := {|
  node := Z;
  cl_get_transaction_count := fun _ n => (Ok n, n);
  cl_chain_id := fun n => (Ok 1, n);
  cl_gas_price := fun n => (Ok 20, n);
  cl_estimate_gas := fun _ _ n => (Ok 50000, n);
  cl_send_raw_transaction := fun raw n =>
    if revert then (Raise (mkExn "ContractLogicError" "execution reverted"), n)
    else (Ok "stub-hash", n + 1);
  cl_call := fun _ n => (Ok order, n);
  cl_abi_check := fun _ => None;
  cl_build_check := fun _ _ => None;
  cl_sign_transaction := fun _ => Ok "signed";
  cl_fromWei := Ok fromWei;
  cl_hex := fun h => h
|}.

Definition cfg : config := {|
  account_address := "0xSigner";
  CONTRACT_ADDRESS := "0xContract";
  ISO_CID := Some "cid"
|}.

Definition create_request (amount : pyval) : gmap string pyval :=
  <["supplier" := PStr "0xCF10"]>
  (<["amount" := amount]> (<["vin" := PStr "VIN123456"]> ∅)).

Definition deposit_request (amount : pyval) : gmap string pyval :=
  <["orderId" := PInt 1]> (<["amount" := amount]> ∅).

Definition order_request (order_id : pyval) : gmap string pyval :=
  <["orderId" := order_id]> ∅.

End Stub.

(** ** Notions the properties are stated with *)

(** Numerals in positional notation: digits, a point, digits; or digits
    alone. *)
Definition plain (intpart fracpart : list ascii) : string :=
  string_of_list_ascii (intpart ++ "."%char :: fracpart)%list.

Definition whole (digits : list ascii) : string := string_of_list_ascii digits.

Definition all_digits (l : list ascii) : bool := forallb Numeral.is_digit l.

(** The ways an amount [c * 10^e] is written in a request: a JSON
    integer, a Decimal, a string holding a numeral in positional
    notation, or a float that prints as such a numeral with at most 15
    decimals (up to there the binary value of a float below 1, rounded
    to the printed digits, is the printed decimal). *)
Definition written (number : pyval) (c e : Z) : Prop :=
  match number with
  | PInt z => c = z /\ e = 0
  | PDecimal d => d = mkDecimal false c e
  | PStr s =>
      (exists ip fp,
         s = plain ip fp /\ all_digits ip = true /\ all_digits fp = true
         /\ (ip ++ fp)%list <> []
         /\ c = Numeral.int_of_digits (ip ++ fp)%list
         /\ e = - Z.of_nat (List.length fp))
      \/ (exists ip,
            s = whole ip /\ all_digits ip = true /\ ip <> []
            /\ c = Numeral.int_of_digits ip /\ e = 0)
  | PFloat s =>
      exists ip fp,
        s = plain ip fp /\ all_digits ip = true /\ all_digits fp = true
        /\ (ip ++ fp)%list <> []
        /\ (List.length fp <= 15)%nat
        /\ c = Numeral.int_of_digits (ip ++ fp)%list
        /\ e = - Z.of_nat (List.length fp)
  | _ => False
  end.

(** The characters of a positional numeral. *)
Definition plain_char (c : ascii) : bool :=
  Numeral.is_digit c || Numeral.is_char "." c.

(** The fixed deposit, [to_wei("0.5", "ether")]. *)
Definition deposit_value : Z := 500000000000000000.

(** The gas limit of the flat-gas transitions and the gas price of
    DepositFunds, [to_wei("5", "gwei")]. *)
Definition flat_gas : Z := 300000.
Definition deposit_gas_price : Z := 5000000000.

(** The nonce a run fetched: its first interaction, when that is a
    successful transaction-count lookup. *)
Definition fetched_nonce (trace : list event) : option Z :=
  match trace with
  | GetTransactionCount _ (Ok k) :: _ => Some k
  | _ => None
  end.

(** A chain whose transaction count, read by [count] off the node, is what
    the lookup reports and never decreases, whatever is asked of the node. *)
Record nondecreasing (C : ChainClient) (count : node C -> Z) : Prop := {
  nd_lookup : forall a n k n',
    cl_get_transaction_count C a n = (Ok k, n') -> k = count n;
  nd_get_transaction_count : forall a n r n',
    cl_get_transaction_count C a n = (r, n') -> count n <= count n';
  nd_chain_id : forall n r n', cl_chain_id C n = (r, n') -> count n <= count n';
  nd_gas_price : forall n r n', cl_gas_price C n = (r, n') -> count n <= count n';
  nd_estimate_gas : forall f tx n r n',
    cl_estimate_gas C f tx n = (r, n') -> count n <= count n';
  nd_send_raw_transaction : forall raw n r n',
    cl_send_raw_transaction C raw n = (r, n') -> count n <= count n'
}.

(** The answer of [get_order] to an order the node returned. *)
Definition order_snapshot (o0 o1 o2 amount o4 o5 o6 : pyval) : response :=
  mkResponse 200
    [("orderId", o0); ("buyer", o1); ("supplier", o2); ("amount", amount);
     ("state", o4); ("vin", o5); ("isoTs16949Doc", o6)].

(** ** Further notions: attempts, kinds of interaction, the ABI file *)

(** *** The attempts behind the handlers *)

Section Attempts.

Context (C : ChainClient) (cfg : config).

Local Open Scope handler_scope.

(** The transaction dictionary of the flat-gas transitions. *)
Definition flat_dict (cid price nonce : Z) : gmap string pyval :=
  <["chainId" := PInt cid]>
  (<["gas" := PInt 300000]>
   (<["gasPrice" := PInt price]>
    (<["nonce" := PInt nonce]> ∅))).

(** The transaction dictionary of DepositFunds. *)
Definition deposit_dict (cid gas nonce : Z) : gmap string pyval :=
  <["chainId" := PInt cid]>
  (<["gas" := PInt gas]>
   (<["gasPrice" := PInt 5000000000]>
    (<["nonce" := PInt nonce]>
     (<["value" := PInt 500000000000000000]> ∅)))).

(** The [try] statement of [create_order], [mark_shipped] and
    [confirm_delivery], for the contract function and arguments at hand. *)
Definition flat_attempt (name : string) (args : list pyval) : M C response :=
  try_except
    (nonce <- get_transaction_count C (account_address cfg) ;;
     f <- contract_function C name args ;;
     cid <- chain_id C ;;
     price <- gas_price C ;;
     tx <- build_transaction C cfg f (flat_dict cid price nonce) ;;
     sign_and_send C tx)
    (fun e => ret (chain_error e)).

(** The [try] statement of [deposit_funds]. *)
Definition deposit_attempt (order_id : pyval) : M C response :=
  try_except
    (nonce <- get_transaction_count C (account_address cfg) ;;
     f <- contract_function C "depositFunds" [order_id] ;;
     gas_estimate <- estimate_gas C f
             (<["from" := PStr (account_address cfg)]>
              (<["value" := PInt 500000000000000000]> ∅)) ;;
     f' <- contract_function C "depositFunds" [order_id] ;;
     cid <- chain_id C ;;
     tx <- build_transaction C cfg f' (deposit_dict cid gas_estimate nonce) ;;
     sign_and_send C tx)
    (fun e => ret (chain_error e)).

(** The contract function a flat-gas transition calls, and its arguments
    once the amount is in wei. *)
Definition flat_call (t : transition) (data : gmap string pyval) (amount_wei : Z)
    : string * list pyval :=
  match t with
  | CreateOrder =>
      ("createOrder",
       [dict_get data "supplier"; PInt amount_wei; dict_get data "vin";
        PStr (iso_uri cfg)])
  | MarkShipped => ("markShipped", [dict_get data "orderId"])
  | _ => ("confirmDelivery", [dict_get data "orderId"])
  end.

End Attempts.

(** *** Kinds of interaction *)

(** The kind of an interaction. *)
Inductive kind : Type :=
  | KNonce | KFunction | KChainId | KGasPrice | KEstimate
  | KBuild | KSign | KSend | KCall.

Definition kind_of (ev : event) : kind :=
  match ev with
  | GetTransactionCount _ _ => KNonce
  | FunctionCall _ _ _ => KFunction
  | ChainId _ => KChainId
  | GasPrice _ => KGasPrice
  | EstimateGas _ _ _ => KEstimate
  | BuildTransaction _ _ _ => KBuild
  | SignTransaction _ _ => KSign
  | SendRawTransaction _ _ => KSend
  | Call _ _ => KCall
  end.

(** The interactions of a write transition that goes through, in order. *)
Definition steps (t : transition) : list kind :=
  match t with
  | DepositFunds =>
      [KNonce; KFunction; KEstimate; KFunction; KChainId; KBuild; KSign; KSend]
  | _ => [KNonce; KFunction; KChainId; KGasPrice; KBuild; KSign; KSend]
  end.

(** All required fields of a transition are truthy: its guard passes. *)
Definition guard_ok (t : transition) (data : gmap string pyval) : bool :=
  forallb (fun k => truthy (dict_get data k)) (required t).

(** *** Loading the ABI *)

Definition AttributeError (msg : string) : exn := mkExn "AttributeError" msg.

(** The type name an AttributeError reports. *)
Definition type_name (v : pyval) : string :=
  match v with
  | PNone => "NoneType"
  | PBool _ => "bool"
  | PInt _ => "int"
  | PFloat _ => "float"
  | PStr _ => "str"
  | PDecimal _ => "decimal.Decimal"
  | PList _ => "list"
  | PDict _ => "dict"
  end.

(** The value a decoded JSON object holds under a key: of several members
    with the same name the last one counts. *)
Definition member (l : list (string * pyval)) (key : string) : option pyval :=
  fold_left (fun found kv => if String.eqb (fst kv) key then Some (snd kv) else found)
            l None.

(** [abi_data if isinstance(abi_data, list) else abi_data.get("abi")], for
    the decoded content of the ABI file. *)
Definition contract_abi (abi_data : pyval) : result pyval :=
  match abi_data with
  | PList _ => Ok abi_data
  | PDict l => Ok (match member l "abi" with Some v => v | None => PNone end)
  | _ => Raise (AttributeError
                  ("'" ++ type_name abi_data ++ "' object has no attribute 'get'"))
  end.

(** *** A client for the read path *)

(** A client that answers every read with a given order and has a given
    [fromWei]. *)
Module Probe.

Definition client (order : list pyval)
    (fromWei : result (pyval -> string -> result pyval)) : ChainClient := {|
  node := Z;
  cl_get_transaction_count := fun _ n => (Ok n, n);
  cl_chain_id := fun n => (Ok 1, n);
  cl_gas_price := fun n => (Ok 20, n);
  cl_estimate_gas := fun _ _ n => (Ok 50000, n);
  cl_send_raw_transaction := fun raw n => (Ok "stub-hash", n + 1);
  cl_call := fun _ n => (Ok order, n);
  cl_abi_check := fun _ => None;
  cl_build_check := fun _ _ => None;
  cl_sign_transaction := fun _ => Ok "signed";
  cl_fromWei := fromWei;
  cl_hex := fun h => h
|}.

Definition no_fromWei : exn :=
  AttributeError "'Web3' object has no attribute 'fromWei'".

End Probe.

Arguments validation_error : simpl never.
Arguments Currency.to_wei : simpl never.
Arguments Currency.from_wei : simpl never.

(** ** Tactics: running a handler, interaction by interaction *)

Ltac unfold_ops :=
  unfold sign_and_send, get_transaction_count, contract_function, chain_id,
    gas_price, estimate_gas, build_transaction, sign_transaction,
    send_raw_transaction, call, try_except, bind, ret, pure, remote, local, start.

(** Case on the answer of the next operation of the client in the goal. *)
Ltac exec_step :=
  match goal with
  | |- context [cl_get_transaction_count ?C ?a ?n] =>
      destruct (cl_get_transaction_count C a n) as [[?nonce | ?e] ?n] eqn:?Hnonce
  | |- context [cl_abi_check ?C ?f] =>
      destruct (cl_abi_check C f) as [?e |] eqn:?Habi
  | |- context [cl_estimate_gas ?C ?f ?tx ?n] =>
      destruct (cl_estimate_gas C f tx n) as [[?gas | ?e] ?n] eqn:?Hgas
  | |- context [cl_chain_id ?C ?n] =>
      destruct (cl_chain_id C n) as [[?cid | ?e] ?n] eqn:?Hcid
  | |- context [cl_gas_price ?C ?n] =>
      destruct (cl_gas_price C n) as [[?price | ?e] ?n] eqn:?Hprice
  | |- context [cl_build_check ?C ?f ?tx] =>
      destruct (cl_build_check C f tx) as [?e |] eqn:?Hbuild
  | |- context [cl_sign_transaction ?C ?tx] =>
      destruct (cl_sign_transaction C tx) as [?raw | ?e] eqn:?Hsign
  | |- context [cl_send_raw_transaction ?C ?raw ?n] =>
      destruct (cl_send_raw_transaction C raw n) as [[?hash | ?e] ?n] eqn:?Hsend
  | |- context [cl_call ?C ?f ?n] =>
      destruct (cl_call C f n) as [[?order | ?e] ?n] eqn:?Hcall
  end.

Ltac exec := unfold_ops; cbn; repeat (exec_step; cbn).

(** Split a membership in an explicit list of events into its cases. *)
Ltac cases_in H :=
  cbn [w_trace snd fst app In] in H;
  repeat (destruct H as [H | H]; [try discriminate H |]);
  try contradiction.

Ltac learn_counts Hnd :=
  repeat match goal with
         | H : cl_get_transaction_count _ _ _ = _ |- _ =>
             apply (nd_get_transaction_count _ _ Hnd) in H
         | H : cl_chain_id _ _ = _ |- _ => apply (nd_chain_id _ _ Hnd) in H
         | H : cl_gas_price _ _ = _ |- _ => apply (nd_gas_price _ _ Hnd) in H
         | H : cl_estimate_gas _ _ _ _ = _ |- _ => apply (nd_estimate_gas _ _ Hnd) in H
         | H : cl_send_raw_transaction _ _ _ = _ |- _ =>
             apply (nd_send_raw_transaction _ _ Hnd) in H
         end.


(** * Properties *)

(** ** The conversions on concrete amounts *)

Example to_wei_one : Currency.to_wei (PFloat "1.0") "ether" = Ok (10 ^ 18).
Proof. vm_compute. reflexivity. Qed.
Example to_wei_half : Currency.to_wei (PStr "0.5") "ether" = Ok (5 * 10 ^ 17).
Proof. vm_compute. reflexivity. Qed.
Example to_wei_5gwei : Currency.to_wei (PStr "5") "gwei" = Ok 5000000000.
Proof. vm_compute. reflexivity. Qed.
Example to_wei_sub : Currency.to_wei (PStr "0.0000000000000000015") "ether" = Ok 1.
Proof. vm_compute. reflexivity. Qed.
Example to_wei_lossy : Currency.to_wei (PStr "123456.5e-7") "ether" = Ok 12350000000000000.
Proof. vm_compute. reflexivity. Qed.
Example to_wei_sp : Currency.to_wei (PStr " 0_1.5 ") "ether" = Ok 1500000000000000000.
Proof. vm_compute. reflexivity. Qed.
Example to_wei_abc : Currency.to_wei (PStr "abc") "ether" = Raise InvalidOperation.
Proof. vm_compute. reflexivity. Qed.
Example to_wei_neg : Currency.to_wei (PInt (-1)) "ether" = Raise Currency.out_of_range.
Proof. vm_compute. reflexivity. Qed.
Example to_wei_dec : Currency.to_wei (PDecimal (mkDecimal false 15 (-8))) "ether" = Ok 150000000000.
Proof. vm_compute. reflexivity. Qed.
Example from_wei_half : Currency.from_wei (5 * 10 ^ 17) "ether" = Ok (PDecimal (mkDecimal false 5 (-1))).
Proof. vm_compute. reflexivity. Qed.
Example from_wei_one : Currency.from_wei (10 ^ 18) "ether" = Ok (PDecimal (mkDecimal false 1 0)).
Proof. vm_compute. reflexivity. Qed.

Lemma to_wei_deposit : Currency.to_wei (PStr "0.5") "ether" = Ok 500000000000000000.
Proof. vm_compute. reflexivity. Qed.

Lemma to_wei_deposit_price : Currency.to_wei (PStr "5") "gwei" = Ok 5000000000.
Proof. vm_compute. reflexivity. Qed.

(** Open a write handler whose guard passes. *)
Ltac open_handler :=
  unfold handler, create_order, deposit_funds, mark_shipped, confirm_delivery,
    order_transition;
  repeat match goal with
         | H : truthy (dict_get _ _) = true |- _ => rewrite H
         end;
  cbn [negb orb];
  rewrite ?to_wei_deposit_price;
  try (unfold pure at 1; unfold bind at 1; rewrite to_wei_deposit).

(** ** Facts about the decimal arithmetic *)

Section DecimalFacts.

Lemma pow10_pos (n : Z) : 0 <= n -> 0 < 10 ^ n.
Proof. intros. apply Z.pow_pos_nonneg; lia. Qed.

Lemma pow10_split (a b : Z) : 0 <= a -> 0 <= b -> 10 ^ (a + b) = 10 ^ a * 10 ^ b.
Proof. intros. apply Z.pow_add_r; lia. Qed.

Lemma pow10_le (a b : Z) : 0 <= a <= b -> 10 ^ a <= 10 ^ b.
Proof. intros. apply Z.pow_le_mono_r; lia. Qed.

Lemma pow10_lt_inv (a b : Z) : 0 <= a -> 0 <= b -> 10 ^ a < 10 ^ b -> a < b.
Proof. intros Ha Hb H. apply (Z.pow_lt_mono_r_iff 10); lia. Qed.

Lemma ndigits_fuel_bounds (fuel : nat) (c : Z) :
  0 < c -> c < 10 ^ (Z.of_nat fuel + 1) ->
  1 <= Dec.ndigits_fuel fuel c
  /\ 10 ^ (Dec.ndigits_fuel fuel c - 1) <= c < 10 ^ Dec.ndigits_fuel fuel c.
Proof.
  revert c. induction fuel as [| f IH]; intros c Hpos Hlt.
  - cbn in *. lia.
  - cbn [Dec.ndigits_fuel]. destruct (c <? 10) eqn:E.
    + apply Z.ltb_lt in E. cbn. lia.
    + apply Z.ltb_ge in E.
      assert (Hq : 0 < c / 10) by (apply Z.div_str_pos; lia).
      assert (Hlt' : c / 10 < 10 ^ (Z.of_nat f + 1)).
      { apply Z.div_lt_upper_bound; [lia |].
        replace (Z.of_nat (S f) + 1) with (1 + (Z.of_nat f + 1)) in Hlt by lia.
        rewrite pow10_split in Hlt by lia. lia. }
      destruct (IH (c / 10) Hq Hlt') as (H1 & H2 & H3).
      set (m := Dec.ndigits_fuel f (c / 10)) in *.
      split; [lia |].
      replace (1 + m - 1) with (1 + (m - 1)) by lia.
      replace (1 + m) with (1 + m)%Z by lia.
      rewrite !pow10_split by lia.
      change (10 ^ 1) with 10.
      pose proof (Z.div_mod c 10 ltac:(lia)) as Hdm.
      pose proof (Z.mod_pos_bound c 10 ltac:(lia)) as Hm.
      lia.
Qed.

Lemma ndigits_bounds (c : Z) :
  0 < c ->
  1 <= Dec.ndigits c /\ 10 ^ (Dec.ndigits c - 1) <= c < 10 ^ Dec.ndigits c.
Proof.
  intros Hpos. unfold Dec.ndigits. apply ndigits_fuel_bounds; [exact Hpos |].
  rewrite Z2Nat.id by apply Z.log2_nonneg.
  destruct (Z.log2_spec c Hpos) as [_ Hlt].
  assert (2 ^ Z.succ (Z.log2 c) <= 10 ^ Z.succ (Z.log2 c)).
  { apply Z.pow_le_mono_l. lia. }
  unfold Z.succ in *. lia.
Qed.

Lemma ndigits_unique (c n : Z) :
  0 < c -> 10 ^ (n - 1) <= c < 10 ^ n -> 1 <= n -> Dec.ndigits c = n.
Proof.
  intros Hpos [Hlo Hhi] Hn.
  destruct (ndigits_bounds c Hpos) as (H1 & H2 & H3).
  set (m := Dec.ndigits c) in *.
  assert (m - 1 < n) by (apply pow10_lt_inv; lia).
  assert (n - 1 < m) by (apply pow10_lt_inv; lia).
  lia.
Qed.

Lemma ndigits_le (c p : Z) : 0 < c -> 1 <= p -> c < 10 ^ p -> Dec.ndigits c <= p.
Proof.
  intros Hpos Hp Hlt.
  destruct (ndigits_bounds c Hpos) as (H1 & H2 & H3).
  assert (Dec.ndigits c - 1 < p) by (apply pow10_lt_inv; lia).
  lia.
Qed.

Lemma ndigits_scaled (c m : Z) :
  0 < c -> 0 <= m -> Dec.ndigits (c * 10 ^ m) = Dec.ndigits c + m.
Proof.
  intros Hpos Hm.
  destruct (ndigits_bounds c Hpos) as (H1 & H2 & H3).
  pose proof (pow10_pos m Hm) as Hp.
  apply ndigits_unique; [nia | | lia].
  replace (Dec.ndigits c + m - 1) with (Dec.ndigits c - 1 + m) by lia.
  rewrite !pow10_split by lia. nia.
Qed.

Lemma ndigits_pow10 (m : Z) : 0 <= m -> Dec.ndigits (10 ^ m) = m + 1.
Proof.
  intros Hm. replace (10 ^ m) with (1 * 10 ^ m) by lia.
  rewrite ndigits_scaled by lia. change (Dec.ndigits 1) with 1. lia.
Qed.


Lemma fix_prec_id (prec : Z) (d : Decimal) :
  Dec.ndigits (d_int d) <= prec -> Dec.fix_prec prec d = d.
Proof.
  intros H. unfold Dec.fix_prec.
  apply Z.leb_le in H. rewrite H. reflexivity.
Qed.

(** Rounding away digits that are all zero changes nothing but the
    exponent. *)
Lemma fix_prec_exact (prec : Z) (s : bool) (c e k : Z) :
  0 < c -> 1 <= prec -> 0 < k ->
  Dec.ndigits (c * 10 ^ k) = prec + k ->
  Dec.fix_prec prec (mkDecimal s (c * 10 ^ k) e) = mkDecimal s c (e + k).
Proof.
  intros Hc Hprec Hk Hn.
  pose proof (pow10_pos k ltac:(lia)) as Hp.
  unfold Dec.fix_prec, Dec.is_zero. cbn [d_int d_sign d_exp].
  rewrite Hn.
  replace (prec + k <=? prec) with false by (symmetry; apply Z.leb_gt; lia).
  replace (c * 10 ^ k =? 0) with false by (symmetry; apply Z.eqb_neq; nia).
  cbn [orb].
  replace (prec + k - prec) with k by lia.
  rewrite Z.div_mul by lia. rewrite Z.mod_mul by lia.
  pose proof (pow10_pos (k - 1) ltac:(lia)) as Hh.
  replace (5 * 10 ^ (k - 1) <? 0) with false by (symmetry; apply Z.ltb_ge; lia).
  replace (0 =? 5 * 10 ^ (k - 1)) with false by (symmetry; apply Z.eqb_neq; lia).
  cbn [orb andb].
  rewrite ndigits_scaled in Hn by lia.
  replace (Dec.ndigits c <=? prec) with true by (symmetry; apply Z.leb_le; lia).
  reflexivity.
Qed.

Lemma strip_to_pow10 (fuel : nat) (a : Z) :
  Z.of_nat fuel <= a ->
  Dec.strip_to fuel 0 (10 ^ a) (- Z.of_nat fuel) = (10 ^ (a - Z.of_nat fuel), 0).
Proof.
  revert a. induction fuel as [| f IH]; intros a Ha.
  - cbn. rewrite Z.sub_0_r. reflexivity.
  - cbn [Dec.strip_to].
    pose proof (pow10_pos (a - 1) ltac:(lia)) as Hp.
    assert (E : 10 ^ a = 10 ^ (a - 1) * 10).
    { replace a with ((a - 1) + 1) at 1 by lia. rewrite pow10_split by lia. reflexivity. }
    replace (- Z.of_nat (S f) <? 0) with true by (symmetry; apply Z.ltb_lt; lia).
    rewrite E, Z.mod_mul, Z.div_mul by lia.
    replace (10 ^ (a - 1) * 10 =? 0) with false by (symmetry; apply Z.eqb_neq; lia).
    cbn [andb negb Z.eqb].
    replace (- Z.of_nat (S f) + 1) with (- Z.of_nat f) by lia.
    rewrite IH by lia. f_equal. f_equal. lia.
Qed.

(** Stripping zeros keeps the value. *)
Lemma strip_to_value (fuel : nat) (ideal c e c' e' : Z) :
  Dec.strip_to fuel ideal c e = (c', e') ->
  e <= e' /\ c = c' * 10 ^ (e' - e).
Proof.
  revert c e. induction fuel as [| f IH]; intros c e H.
  - cbn in H. injection H as <- <-. rewrite Z.sub_diag. lia.
  - cbn [Dec.strip_to] in H.
    destruct ((e <? ideal) && (c mod 10 =? 0) && negb (c =? 0)) eqn:E.
    + apply andb_prop in E. destruct E as [E _].
      apply andb_prop in E. destruct E as [_ E]. apply Z.eqb_eq in E.
      destruct (IH _ _ H) as [Hle Hv].
      split; [lia |].
      replace (e' - e) with ((e' - (e + 1)) + 1) by lia.
      rewrite pow10_split by lia. change (10 ^ 1) with 10.
      pose proof (Z.div_mod c 10 ltac:(lia)). lia.
    + injection H as <- <-. rewrite Z.sub_diag. lia.
Qed.


Lemma mul_exact (prec : Z) (s1 s2 : bool) (c1 c2 e1 e2 : Z) :
  Dec.ndigits (c1 * c2) <= prec ->
  e1 + e2 + Dec.ndigits (c1 * c2) - 1 <= Dec.Emax ->
  Dec.mul prec (mkDecimal s1 c1 e1) (mkDecimal s2 c2 e2)
    = Ok (mkDecimal (xorb s1 s2) (c1 * c2) (e1 + e2)).
Proof.
  intros Hn He. unfold Dec.mul. cbn [d_sign d_int d_exp].
  rewrite fix_prec_id by exact Hn.
  unfold Dec.adjusted. cbn [d_int d_exp].
  replace (Dec.Emax <? e1 + e2 + Dec.ndigits (c1 * c2) - 1) with false
    by (symmetry; apply Z.ltb_ge; lia).
  rewrite andb_false_r. reflexivity.
Qed.

Lemma MAX_WEI_bound : Currency.MAX_WEI < 10 ^ 78.
Proof. reflexivity. Qed.

(** A non-negative result within the wei range passes the range check. *)
Lemma in_range (c e : Z) :
  0 <= c ->
  (0 <= e -> c * 10 ^ e <= Currency.MAX_WEI) ->
  (e < 0 -> c <= Currency.MAX_WEI * 10 ^ (- e)) ->
  Dec.ltb (mkDecimal false c e) (Dec.of_Z Currency.MIN_WEI)
    || Dec.ltb (Dec.of_Z Currency.MAX_WEI) (mkDecimal false c e) = false.
Proof.
  intros Hc Hpos Hneg.
  unfold Dec.ltb, Dec.scaled, Dec.signed, Dec.of_Z.
  change (Currency.MIN_WEI <? 0) with false.
  change (Currency.MAX_WEI <? 0) with false.
  change (Z.abs Currency.MIN_WEI) with 0.
  change (Z.abs Currency.MAX_WEI) with Currency.MAX_WEI.
  cbn [d_sign d_int d_exp].
  apply orb_false_intro.
  - apply Z.ltb_ge. rewrite Z.mul_0_l.
    apply Z.mul_nonneg_nonneg; [lia |]. apply Z.pow_nonneg. lia.
  - apply Z.ltb_ge.
    destruct (Z.le_gt_cases 0 e) as [He | He].
    + rewrite Z.min_l by lia. rewrite Z.sub_diag, Z.sub_0_r.
      change (10 ^ 0) with 1. specialize (Hpos He). lia.
    + rewrite Z.min_r by lia. rewrite Z.sub_diag, Z.sub_0_l.
      change (10 ^ 0) with 1. specialize (Hneg He). lia.
Qed.

(** [convert] without rescaling: the exact product with the unit. *)
Lemma convert_direct (c e : Z) (point : option Z) :
  0 < c -> -18 <= e -> c * 10 ^ (e + 18) <= Currency.MAX_WEI ->
  point = None \/ Dec.ltb (mkDecimal false c e) (Dec.of_Z 1) = false ->
  Currency.convert (mkDecimal false c e) point 18 = Ok (c * 10 ^ (e + 18)).
Proof.
  intros Hc He Hmax Hpoint.
  pose proof MAX_WEI_bound as HM.
  pose proof (pow10_pos (e + 18) ltac:(lia)) as Hp.
  assert (Hc78 : c < 10 ^ 78) by nia.
  assert (He60 : e + 18 < 78).
  { apply pow10_lt_inv; first [lia | nia]. }
  assert (Hnd : Dec.ndigits (c * 10 ^ 18) <= 96).
  { rewrite ndigits_scaled by lia.
    pose proof (ndigits_le c 78 Hc ltac:(lia) Hc78). lia. }
  unfold Currency.convert.
  assert (Hres : match point with
                 | Some multiplier =>
                     if Dec.ltb (mkDecimal false c e) (Dec.of_Z 1)
                     then
                       if multiplier <? 1
                       then Raise (ValueError "valid range for prec is [1, MAX_PREC]")
                       else
                         match Dec.mul multiplier (mkDecimal false c e)
                                 (Dec.of_Z (10 ^ multiplier)) with
                         | Ok d' => Ok (d', Dec.div_pow10 (mkDecimal false (10 ^ 18) 0) multiplier)
                         | Raise e0 => Raise e0
                         end
                     else Ok (mkDecimal false c e, mkDecimal false (10 ^ 18) 0)
                 | None => Ok (mkDecimal false c e, mkDecimal false (10 ^ 18) 0)
                 end = Ok (mkDecimal false c e, mkDecimal false (10 ^ 18) 0)).
  { destruct point as [m |]; [| reflexivity].
    destruct Hpoint as [Hpoint | Hpoint]; [discriminate Hpoint | rewrite Hpoint; reflexivity]. }
  rewrite Hres.
  rewrite mul_exact by (unfold Dec.Emax; lia).
  cbn [xorb]. rewrite Z.add_0_r.
  rewrite in_range.
  - unfold Dec.to_int. cbn [d_sign d_int d_exp]. f_equal.
    destruct (0 <=? e) eqn:E.
    + apply Z.leb_le in E. rewrite (Z.add_comm e 18), pow10_split by lia. lia.
    + apply Z.leb_gt in E.
      replace 18 with ((e + 18) + (- e)) at 1 by lia.
      rewrite pow10_split by lia. rewrite Z.mul_assoc.
      apply Z.div_mul. pose proof (pow10_pos (- e) ltac:(lia)). lia.
  - nia.
  - intros E. rewrite (Z.add_comm e 18) in Hmax. rewrite pow10_split in Hmax by lia. lia.
  - intros E.
    replace 18 with ((e + 18) + (- e)) at 1 by lia.
    rewrite pow10_split by lia.
    pose proof (pow10_pos (- e) ltac:(lia)). nia.
Qed.


(** A value below 1 has a negative exponent and no more digits than
    decimals. *)
Lemma below_one (c e : Z) :
  0 < c -> Dec.ltb (mkDecimal false c e) (Dec.of_Z 1) = true ->
  e < 0 /\ c < 10 ^ (- e) /\ Dec.ndigits c <= - e.
Proof.
  intros Hc H.
  unfold Dec.ltb, Dec.scaled, Dec.signed, Dec.of_Z in H.
  cbn [d_sign d_int d_exp Z.ltb Z.abs Z.compare] in H.
  apply Z.ltb_lt in H.
  destruct (Z.le_gt_cases 0 e) as [He | He].
  - rewrite Z.min_r in H by lia. rewrite Z.sub_0_r, Z.sub_diag in H.
    pose proof (pow10_pos e He). change (10 ^ 0) with 1 in H. nia.
  - rewrite Z.min_l in H by lia. rewrite Z.sub_diag, Z.sub_0_l in H.
    change (10 ^ 0) with 1 in H.
    split; [lia | split; [lia |]].
    apply ndigits_le; lia.
Qed.

Lemma of_Z_pow10 (m : Z) : 0 <= m -> Dec.of_Z (10 ^ m) = mkDecimal false (10 ^ m) 0.
Proof.
  intros Hm. pose proof (pow10_pos m Hm). unfold Dec.of_Z.
  replace (10 ^ m <? 0) with false by (symmetry; apply Z.ltb_ge; lia).
  rewrite Z.abs_eq by lia. reflexivity.
Qed.

(** [convert] of a value below 1 written with a point, when its digits
    fit the characters after the point: the exact product again. *)
Lemma convert_rescaled (c e m : Z) :
  0 < c -> -18 <= e ->
  Dec.ltb (mkDecimal false c e) (Dec.of_Z 1) = true ->
  Dec.ndigits c <= m -> m <= 18 ->
  Currency.convert (mkDecimal false c e) (Some m) 18 = Ok (c * 10 ^ (e + 18)).
Proof.
  intros Hc He Hlt Hm Hm18.
  destruct (below_one c e Hc Hlt) as (Hneg & Hclt & Hk).
  destruct (ndigits_bounds c Hc) as (Hk1 & Hklo & Hkhi).
  set (k := Dec.ndigits c) in *.
  pose proof (pow10_pos (m - k) ltac:(lia)) as Hp1.
  pose proof (pow10_pos (18 - m) ltac:(lia)) as Hp2.
  pose proof (pow10_pos k ltac:(lia)) as Hp3.
  unfold Currency.convert. rewrite Hlt.
  replace (m <? 1) with false by (symmetry; apply Z.ltb_ge; lia).
  rewrite of_Z_pow10 by lia.
  (* the rescaling product, rounded at precision m *)
  assert (Hmul : Dec.mul m (mkDecimal false c e) (mkDecimal false (10 ^ m) 0)
                 = Ok (mkDecimal false (c * 10 ^ (m - k)) (e + k))).
  { unfold Dec.mul. cbn [d_sign d_int d_exp xorb].
    replace (c * 10 ^ m) with (c * 10 ^ (m - k) * 10 ^ k).
    2: { rewrite <- Z.mul_assoc, <- pow10_split by lia. do 2 f_equal. lia. }
    rewrite fix_prec_exact; try lia.
    2: { rewrite ndigits_scaled by nia. rewrite ndigits_scaled by lia.
         fold k. lia. }
    unfold Dec.is_zero, Dec.adjusted. cbn [d_int d_exp].
    rewrite ndigits_scaled by lia. fold k.
    replace (Dec.Emax <? e + 0 + k + (k + (m - k)) - 1) with false
      by (symmetry; apply Z.ltb_ge; unfold Dec.Emax; lia).
    rewrite andb_false_r. f_equal. f_equal. lia. }
  rewrite Hmul.
  (* the unit, divided by the same power of ten *)
  assert (Hdiv : Dec.div_pow10 (mkDecimal false (10 ^ 18) 0) m
                 = mkDecimal false (10 ^ (18 - m)) 0).
  { unfold Dec.div_pow10. cbn [d_sign d_int d_exp].
    replace (0 - m) with (- Z.of_nat (Z.to_nat m)) by lia.
    rewrite strip_to_pow10 by lia. rewrite Z2Nat.id by lia. reflexivity. }
  rewrite Hdiv.
  assert (Hnd : Dec.ndigits (c * 10 ^ (m - k) * 10 ^ (18 - m)) = 18).
  { rewrite ndigits_scaled by nia. rewrite ndigits_scaled by lia. fold k. lia. }
  rewrite mul_exact by (rewrite Hnd; unfold Dec.Emax; lia).
  cbn [xorb]. rewrite Z.add_0_r.
  assert (Hval : c * 10 ^ (m - k) * 10 ^ (18 - m) = c * 10 ^ (18 - k)).
  { rewrite <- Z.mul_assoc, <- pow10_split by lia. do 2 f_equal. lia. }
  assert (Hsmall : c * 10 ^ (18 - k) < 10 ^ 18).
  { replace 18 with (k + (18 - k)) at 2 by lia. rewrite pow10_split by lia.
    pose proof (pow10_pos (18 - k) ltac:(lia)). nia. }
  assert (HM : 10 ^ 18 <= Currency.MAX_WEI) by (apply Z.leb_le; reflexivity).
  rewrite Hval.
  rewrite in_range.
  - unfold Dec.to_int. cbn [d_sign d_int d_exp]. f_equal.
    destruct (0 <=? e + k) eqn:E.
    + apply Z.leb_le in E. assert (e + k = 0) as -> by lia.
      change (10 ^ 0) with 1. rewrite Z.mul_1_r. do 2 f_equal. lia.
    + apply Z.leb_gt in E.
      replace (18 - k) with ((e + 18) + (- (e + k))) by lia.
      rewrite pow10_split by lia. rewrite Z.mul_assoc.
      apply Z.div_mul. pose proof (pow10_pos (- (e + k)) ltac:(lia)). lia.
  - pose proof (pow10_pos (18 - k) ltac:(lia)). nia.
  - intros E. assert (e + k = 0) as -> by lia. change (10 ^ 0) with 1. lia.
  - intros E. pose proof (pow10_pos (- (e + k)) ltac:(lia)). nia.
Qed.


Lemma units_ether : Currency.units (Currency.lower "ether") = Some 18.
Proof. reflexivity. Qed.

(** The conversion of a non-negative Decimal with at most 18 decimals. *)
Lemma convert_decimal (c e : Z) :
  0 < c -> -18 <= e -> c * 10 ^ (e + 18) <= Currency.MAX_WEI ->
  Currency.convert (mkDecimal false c e)
    (Currency.after_point_decimal (mkDecimal false c e)) 18
  = Ok (c * 10 ^ (e + 18)).
Proof.
  intros Hc He Hmax.
  destruct (Dec.ltb (mkDecimal false c e) (Dec.of_Z 1)) eqn:Hlt.
  2: { apply convert_direct; auto. }
  destruct (below_one c e Hc Hlt) as (Hneg & Hclt & Hk).
  destruct (ndigits_bounds c Hc) as (Hk1 & _ & _).
  unfold Currency.after_point_decimal. cbn [d_int d_exp].
  set (k := Dec.ndigits c) in *.
  replace (e <=? 0) with true by (symmetry; apply Z.leb_le; lia).
  replace (e <? 0) with true by (symmetry; apply Z.ltb_lt; lia).
  cbn [andb].
  destruct (-6 <? e + k) eqn:E6.
  - apply convert_rescaled; auto; fold k; lia.
  - apply Z.ltb_ge in E6.
    destruct (k =? 1) eqn:E1; [apply convert_direct; auto |].
    replace (e + k =? 1) with false by (symmetry; apply Z.eqb_neq; lia).
    assert (Hd : 1 <= Dec.ndigits (Z.abs (e + k - 1)) <= 2).
    { destruct (ndigits_bounds (Z.abs (e + k - 1)) ltac:(lia)) as (H1 & _ & _).
      split; [exact H1 |]. apply ndigits_le; lia. }
    apply convert_rescaled; auto; fold k; lia.
Qed.

Section Parsing.

Import Numeral.

Local Arguments is_char : simpl never.
Local Arguments is_digit : simpl never.
Local Arguments is_space : simpl never.
Local Arguments plain_char : simpl never.

Lemma plain_char_facts (c : ascii) :
  plain_char c = true ->
  is_space c = false /\ is_char "_" c = false
  /\ is_char "-" c = false /\ is_char "+" c = false.
Proof.
  destruct c as [[] [] [] [] [] [] [] []]; vm_compute; intros H;
    repeat split; solve [reflexivity | discriminate H].
Qed.

Lemma digit_facts (c : ascii) :
  is_digit c = true -> plain_char c = true /\ is_char "." c = false.
Proof.
  destruct c as [[] [] [] [] [] [] [] []]; vm_compute; intros H;
    repeat split; solve [reflexivity | discriminate H].
Qed.

Lemma drop_while_plain (l : list ascii) :
  forallb plain_char l = true -> drop_while is_space l = l.
Proof.
  destruct l as [| c l]; [reflexivity |]. cbn. intros H.
  apply andb_prop in H. destruct H as [H _].
  destruct (plain_char_facts c H) as (-> & _). reflexivity.
Qed.

Lemma forallb_rev (p : ascii -> bool) (l : list ascii) :
  forallb p l = true -> forallb p (rev l) = true.
Proof.
  rewrite !forallb_forall. intros H x Hx. apply H. apply in_rev. exact Hx.
Qed.

Lemma clean_plain (l : list ascii) : forallb plain_char l = true -> clean l = l.
Proof.
  intros H. unfold clean. rewrite (drop_while_plain l H).
  rewrite (drop_while_plain (rev l) (forallb_rev _ _ H)), rev_involutive.
  induction l as [| c l IH]; [reflexivity |].
  cbn [List.filter forallb] in *. apply andb_prop in H. destruct H as [Hc Hl].
  destruct (plain_char_facts c Hc) as (_ & -> & _). cbn [negb]. rewrite IH; auto.
Qed.

Lemma take_sign_plain (l : list ascii) :
  forallb plain_char l = true -> take_sign l = (false, l).
Proof.
  destruct l as [| c l]; [reflexivity |]. cbn. intros H.
  apply andb_prop in H. destruct H as [H _].
  destruct (plain_char_facts c H) as (_ & _ & -> & ->). reflexivity.
Qed.

Lemma span_digits (ip rest : list ascii) :
  all_digits ip = true ->
  match rest with [] => True | c :: _ => is_digit c = false end ->
  span is_digit (ip ++ rest)%list = (ip, rest).
Proof.
  intros H Hrest. induction ip as [| c ip IH].
  - cbn. destruct rest as [| c r]; [reflexivity |]. cbn. rewrite Hrest. reflexivity.
  - cbn in *. apply andb_prop in H. destruct H as [Hc Hl].
    rewrite Hc, (IH Hl). reflexivity.
Qed.

Lemma after_point_digits (ip : list ascii) :
  all_digits ip = true -> after_point ip = None.
Proof.
  induction ip as [| c ip IH]; [reflexivity |]. cbn. intros H.
  apply andb_prop in H. destruct H as [Hc Hl].
  destruct (digit_facts c Hc) as (_ & ->). auto.
Qed.

Lemma after_point_plain (ip fp : list ascii) :
  all_digits ip = true ->
  after_point (ip ++ "."%char :: fp)%list = Some (Z.of_nat (List.length fp)).
Proof.
  induction ip as [| c ip IH]; [reflexivity |]. cbn. intros H.
  apply andb_prop in H. destruct H as [Hc Hl].
  destruct (digit_facts c Hc) as (_ & ->). auto.
Qed.

Lemma all_digits_plain (l : list ascii) :
  all_digits l = true -> forallb plain_char l = true.
Proof.
  unfold all_digits. rewrite !forallb_forall. intros H x Hx.
  apply digit_facts. auto.
Qed.

Lemma parse_plain (ip fp : list ascii) :
  all_digits ip = true -> all_digits fp = true -> (ip ++ fp)%list <> [] ->
  parse (plain ip fp)
  = Finite (mkDecimal false (int_of_digits (ip ++ fp)%list) (- Z.of_nat (List.length fp))).
Proof.
  intros Hip Hfp Hne. unfold parse, plain.
  rewrite list_ascii_of_string_of_list_ascii.
  assert (Hall : forallb plain_char (ip ++ "."%char :: fp)%list = true).
  { rewrite forallb_app. cbn. rewrite !all_digits_plain by assumption. reflexivity. }
  rewrite (clean_plain _ Hall), (take_sign_plain _ Hall).
  rewrite (span_digits ip ("."%char :: fp) Hip) by reflexivity.
  change (is_char "." ".") with true. cbv iota.
  replace fp with (fp ++ [])%list at 1 by apply app_nil_r.
  rewrite (span_digits fp [] Hfp) by exact I.
  destruct ip as [| c ip]; destruct fp as [| c' fp]; try (exfalso; apply Hne; reflexivity);
    cbn [exponent]; rewrite Z.sub_0_l; reflexivity.
Qed.

Lemma parse_whole (ip : list ascii) :
  all_digits ip = true -> ip <> [] ->
  parse (whole ip) = Finite (mkDecimal false (int_of_digits ip) 0).
Proof.
  intros Hip Hne. unfold parse, whole.
  rewrite list_ascii_of_string_of_list_ascii.
  pose proof (all_digits_plain ip Hip) as Hall.
  rewrite (clean_plain _ Hall), (take_sign_plain _ Hall).
  replace ip with (ip ++ [])%list at 1 by apply app_nil_r.
  rewrite (span_digits ip [] Hip) by exact I.
  destruct ip as [| c ip]; [contradiction |].
  cbn [exponent List.length]. rewrite app_nil_r. reflexivity.
Qed.

End Parsing.


Lemma of_Z_nonneg (z : Z) : 0 <= z -> Dec.of_Z z = mkDecimal false z 0.
Proof.
  intros Hz. unfold Dec.of_Z.
  replace (z <? 0) with false by (symmetry; apply Z.ltb_ge; lia).
  rewrite Z.abs_eq by lia. reflexivity.
Qed.

(** [to_wei] of an amount [c * 10^e] with at most 18 decimals, within the
    wei range, however it is written: the exact product with [10^18]. *)
Lemma to_wei_written (number : pyval) (c e : Z) :
  written number c e ->
  0 <= c -> -18 <= e -> c * 10 ^ (e + 18) <= Currency.MAX_WEI ->
  Currency.to_wei number "ether" = Ok (c * 10 ^ (e + 18)).
Proof.
  intros Hw Hc He Hmax.
  unfold Currency.to_wei. rewrite units_ether.
  assert (Hzero : c = 0 -> @Ok Z 0 = Ok (c * 10 ^ (e + 18))) by (intros ->; reflexivity).
  destruct number as [| b | z | s | s | d | l | l]; cbn [written] in Hw;
    try contradiction.
  - destruct Hw as [<- ->]. cbn [Currency.read_number].
    rewrite of_Z_nonneg by exact Hc. unfold Dec.is_zero. cbn [d_int].
    destruct (c =? 0) eqn:E; [apply Z.eqb_eq in E; auto |].
    apply Z.eqb_neq in E. apply convert_direct; auto; lia.
  - cbn [Currency.read_number].
    destruct Hw as (ip & fp & -> & Hip & Hfp & Hne & _ & -> & ->).
    rewrite parse_plain by assumption.
    unfold plain. rewrite list_ascii_of_string_of_list_ascii, after_point_plain by exact Hip.
    set (c := Numeral.int_of_digits (ip ++ fp)%list) in *.
    set (m := Z.of_nat (Datatypes.length fp)) in *.
    unfold Dec.is_zero. cbn [d_int].
    destruct (c =? 0) eqn:E; [apply Z.eqb_eq in E; auto |].
    apply Z.eqb_neq in E.
    destruct (Dec.ltb (mkDecimal false c (- m)) (Dec.of_Z 1)) eqn:Hlt.
    + destruct (below_one c (- m) ltac:(lia) Hlt) as (_ & _ & Hk).
      apply convert_rescaled; auto; lia.
    + apply convert_direct; auto; lia.
  - cbn [Currency.read_number].
    destruct Hw as [(ip & fp & -> & Hip & Hfp & Hne & -> & ->) | (ip & -> & Hip & Hne & -> & ->)].
    + rewrite parse_plain by assumption.
      unfold plain. rewrite list_ascii_of_string_of_list_ascii, after_point_plain by exact Hip.
      set (c := Numeral.int_of_digits (ip ++ fp)%list) in *.
      set (m := Z.of_nat (Datatypes.length fp)) in *.
      unfold Dec.is_zero. cbn [d_int].
      destruct (c =? 0) eqn:E; [apply Z.eqb_eq in E; auto |].
      apply Z.eqb_neq in E.
      destruct (Dec.ltb (mkDecimal false c (- m)) (Dec.of_Z 1)) eqn:Hlt.
      * destruct (below_one c (- m) ltac:(lia) Hlt) as (_ & _ & Hk).
        apply convert_rescaled; auto; lia.
      * apply convert_direct; auto; lia.
    + rewrite parse_whole by assumption.
      unfold whole. rewrite list_ascii_of_string_of_list_ascii, after_point_digits by exact Hip.
      set (c := Numeral.int_of_digits ip) in *.
      unfold Dec.is_zero. cbn [d_int].
      destruct (c =? 0) eqn:E; [apply Z.eqb_eq in E; auto |].
      apply Z.eqb_neq in E. apply convert_direct; auto; lia.
  - subst d. cbn [Currency.read_number]. unfold Dec.is_zero. cbn [d_int].
    destruct (c =? 0) eqn:E; [apply Z.eqb_eq in E; auto |].
    apply Z.eqb_neq in E. apply convert_decimal; auto; lia.
Qed.

(** Two non-negative decimals that amount to the same number of wei are
    equal as numbers. *)
Lemma eqb_same_wei (c1 e1 c2 e2 : Z) :
  -18 <= e1 -> -18 <= e2 ->
  c1 * 10 ^ (e1 + 18) = c2 * 10 ^ (e2 + 18) ->
  Dec.eqb (mkDecimal false c1 e1) (mkDecimal false c2 e2) = true.
Proof.
  intros H1 H2 H.
  unfold Dec.eqb, Dec.scaled, Dec.signed. cbn [d_sign d_int d_exp].
  set (mn := Z.min e1 e2).
  assert (Hmn : -18 <= mn /\ mn <= e1 /\ mn <= e2) by (unfold mn; lia).
  apply Z.eqb_eq.
  pose proof (pow10_pos (mn + 18) ltac:(lia)) as Hp.
  apply (Z.mul_reg_r _ _ (10 ^ (mn + 18))); [lia |].
  rewrite <- !Z.mul_assoc, <- !pow10_split by lia.
  replace (e1 - mn + (mn + 18)) with (e1 + 18) by lia.
  replace (e2 - mn + (mn + 18)) with (e2 + 18) by lia.
  exact H.
Qed.

(** [from_wei] gives back, as a number, the amount the wei came from. *)
Lemma from_wei_written (c e : Z) :
  0 <= c -> -18 <= e -> c * 10 ^ (e + 18) <= Currency.MAX_WEI ->
  exists r,
    Currency.from_wei (c * 10 ^ (e + 18)) "ether" = Ok r
    /\ Currency.num_eqb r (PDecimal (mkDecimal false c e)) = true
    /\ (e = 0 -> Currency.num_eqb r (PInt c) = true).
Proof.
  intros Hc He Hmax.
  pose proof (pow10_pos (e + 18) ltac:(lia)) as Hp.
  unfold Currency.from_wei. rewrite units_ether.
  destruct (c * 10 ^ (e + 18) =? 0) eqn:E0.
  - apply Z.eqb_eq in E0. assert (c = 0) as -> by nia.
    exists (PInt 0). split; [reflexivity |]. split; [| reflexivity].
    cbn [Currency.num_eqb]. rewrite of_Z_nonneg by lia.
    apply eqb_same_wei; lia.
  - apply Z.eqb_neq in E0.
    set (k := c * 10 ^ (e + 18)) in *.
    assert (Hk : 0 < k) by (unfold k in *; nia).
    replace ((k <? Currency.MIN_WEI) || (Currency.MAX_WEI <? k)) with false.
    2: { symmetry. apply orb_false_intro; [apply Z.ltb_ge | apply Z.ltb_ge];
         unfold Currency.MIN_WEI; lia. }
    rewrite of_Z_nonneg by lia.
    unfold Dec.div_pow10. cbn [d_sign d_int d_exp].
    destruct (Dec.strip_to (Z.to_nat 18) 0 k (0 - 18)) as [c' e'] eqn:Hs.
    destruct (strip_to_value _ _ _ _ _ _ Hs) as [Hle Hv].
    eexists. split; [reflexivity |].
    assert (Hsame : c' * 10 ^ (e' + 18) = c * 10 ^ (e + 18)).
    { fold k. rewrite Hv. first [reflexivity | do 2 f_equal; lia]. }
    split.
    + cbn [Currency.num_eqb]. apply eqb_same_wei; try lia.
    + intros ->. cbn [Currency.num_eqb]. rewrite of_Z_nonneg by lia.
      apply eqb_same_wei; try lia.
Qed.

End DecimalFacts.

(** ** Validation *)

Section Validation.

Context (C : ChainClient) (cfg : config).

(** A handler whose guard finds one tested field falsy answers 400 and
    leaves the world as it was. *)
Lemma guard_rejects (t : transition) (data : gmap string pyval) (w : world C)
    (k : string) :
  In k (required t) ->
  truthy (dict_get data k) = false ->
  handler C cfg t data w = (Ok validation_error, w).
Proof.
  intros Hin Hk.
  destruct t; simpl in Hin;
    repeat (destruct Hin as [<- | Hin]; [| try contradiction]);
    try contradiction;
    unfold handler, create_order, deposit_funds, mark_shipped,
      confirm_delivery, order_transition;
    rewrite Hk; simpl;
    repeat match goal with
           | |- context [truthy ?v] => destruct (truthy v); simpl
           end;
    reflexivity.
Qed.

End Validation.

(** C2. For each of the four write transitions, a request that lacks one
    of the fields the handler requires is answered with the validation
    error (status 400, "Missing required fields"), and the handler
    performs no interaction at all: the node and the list of interactions
    (nonce fetch, gas lookup or estimate, signing, submission) are
    exactly as before. *)
Theorem missing_field_rejected_without_chain
    (C : ChainClient) (cfg : config) (t : transition)
    (data : gmap string pyval) (w : world C) (k : string) :
  In k (required t) ->
  data !! k = None ->
  handler C cfg t data w = (Ok validation_error, w)
  /\ status validation_error = 400
  /\ w_trace (snd (handler C cfg t data (start (w_node w)))) = [].
Proof.
  intros Hin Hk.
  assert (Hf : truthy (dict_get data k) = false) by (unfold dict_get; rewrite Hk; reflexivity).
  split; [| split].
  - exact (guard_rejects C cfg t data w k Hin Hf).
  - reflexivity.
  - rewrite (guard_rejects C cfg t data _ k Hin Hf). reflexivity.
Qed.

Lemma missing_field_rejected_witness :
  In "vin" (required CreateOrder)
  /\ (<["supplier" := PStr "0xCF10"]> (<["amount" := PFloat "1.0"]> ∅)
        : gmap string pyval) !! "vin" = None
  /\ handler (Stub.client false) Stub.cfg CreateOrder
       (<["supplier" := PStr "0xCF10"]> (<["amount" := PFloat "1.0"]> ∅))
       (@start (Stub.client false) 5)
     = (Ok validation_error, @start (Stub.client false) 5).
Proof.
  assert (Hin : In "vin" (required CreateOrder)) by (simpl; tauto).
  assert (Hk : (<["supplier" := PStr "0xCF10"]> (<["amount" := PFloat "1.0"]> ∅)
                  : gmap string pyval) !! "vin" = None) by reflexivity.
  split; [exact Hin | split; [exact Hk |]].
  exact (proj1 (missing_field_rejected_without_chain (Stub.client false) Stub.cfg
                  CreateOrder _ (@start (Stub.client false) 5) "vin" Hin Hk)).
Defined.

(** C9. For each write endpoint, a request in which a required field is
    present but falsy (order id 0, amount 0, an empty supplier or vin
    string) is rejected exactly like an absent one: the answer is the
    validation error "Missing required fields" with status 400, and the
    chain is never reached. *)
Theorem falsy_field_rejected_like_missing
    (C : ChainClient) (cfg : config) (t : transition)
    (data : gmap string pyval) (w : world C) (k : string) (v : pyval) :
  In k (required t) ->
  data !! k = Some v ->
  In v [PInt 0; PFloat "0.0"; PStr ""] ->
  handler C cfg t data w = (Ok validation_error, w)
  /\ validation_error = mkResponse 400 [("error", PStr "Missing required fields")]
  /\ handler C cfg t data w = handler C cfg t (delete k data) w.
Proof.
  intros Hin Hk Hv.
  assert (Hf : truthy (dict_get data k) = false).
  { unfold dict_get; rewrite Hk.
    simpl in Hv. destruct Hv as [<- | [<- | [<- | []]]]; reflexivity. }
  assert (Hd : truthy (dict_get (delete k data) k) = false).
  { unfold dict_get. rewrite lookup_delete_eq. reflexivity. }
  split; [| split].
  - exact (guard_rejects C cfg t data w k Hin Hf).
  - reflexivity.
  - rewrite (guard_rejects C cfg t data w k Hin Hf).
    rewrite (guard_rejects C cfg t (delete k data) w k Hin Hd). reflexivity.
Qed.

Lemma falsy_field_rejected_witness :
  In "orderId" (required DepositFunds)
  /\ (<["orderId" := PInt 0]> (Stub.deposit_request (PFloat "1.0")))
       !! "orderId" = Some (PInt 0)
  /\ handler (Stub.client false) Stub.cfg DepositFunds
       (<["orderId" := PInt 0]> (Stub.deposit_request (PFloat "1.0")))
       (@start (Stub.client false) 5)
     = (Ok validation_error, @start (Stub.client false) 5).
Proof.
  split; [simpl; tauto | split; [reflexivity |]].
  refine (proj1 (falsy_field_rejected_like_missing (Stub.client false) Stub.cfg
                   DepositFunds _ (@start (Stub.client false) 5) "orderId" (PInt 0)
                   _ _ _)).
  - simpl; tauto.
  - reflexivity.
  - simpl; tauto.
Defined.

(** ** The unguarded conversion of CreateOrder *)

(** C10. In CreateOrder the conversion of the amount to wei runs before
    the [try] block: with the present but non-numeric amount "abc" the
    conversion raises, the exception leaves the handler unhandled, no
    response of either error shape (400 or 500) is returned, and nothing
    was asked of the chain. *)
Theorem create_order_conversion_unguarded
    (C : ChainClient) (cfg : config) (data : gmap string pyval) (w : world C) :
  truthy (dict_get data "supplier") = true ->
  truthy (dict_get data "vin") = true ->
  data !! "amount" = Some (PStr "abc") ->
  create_order C cfg data w = (Raise InvalidOperation, w)
  /\ (forall resp, fst (create_order C cfg data w) <> Ok resp).
Proof.
  intros Hs Hv Ha.
  assert (H : create_order C cfg data w = (Raise InvalidOperation, w)).
  { assert (Hget : dict_get data "amount" = PStr "abc")
      by (unfold dict_get; rewrite Ha; reflexivity).
    unfold create_order. rewrite Hs, Hv, Hget. cbn [truthy negb orb].
    change (String.eqb "abc" "") with false. cbn [negb orb].
    unfold pure at 1, bind at 1.
    replace (Currency.to_wei (PStr "abc") "ether") with (@Raise Z InvalidOperation)
      by (vm_compute; reflexivity).
    reflexivity. }
  split; [exact H |].
  intros resp. rewrite H. discriminate.
Qed.

Lemma create_order_conversion_unguarded_witness :
  create_order (Stub.client false) Stub.cfg (Stub.create_request (PStr "abc"))
    (@start (Stub.client false) 5)
  = (Raise InvalidOperation, @start (Stub.client false) 5).
Proof.
  exact (proj1 (create_order_conversion_unguarded (Stub.client false) Stub.cfg
                  (Stub.create_request (PStr "abc")) (@start (Stub.client false) 5)
                  eq_refl eq_refl eq_refl)).
Defined.

(** ** DepositFunds: the attached value *)



(** The stub run does build an envelope, and its value is the deposit. *)
Example deposit_stub_run :
  exists f tx t,
    In (BuildTransaction f tx (Ok t))
       (w_trace (snd (deposit_funds (Stub.client false) Stub.cfg
                        (Stub.deposit_request (PFloat "2.5"))
                        (@start (Stub.client false) 5))))
    /\ tx_fields t !! "value" = Some (PInt deposit_value).
Proof.
  eexists _, _, _. split.
  - open_handler. exec. do 5 right. left. reflexivity.
  - reflexivity.
Qed.

(** ** Gas policy *)



(** ** Nonces *)

Section Nonces.

Context (C : ChainClient) (cfg : config).

(** A write handler leaves the count of such a chain no smaller. *)
Lemma handler_count (count : node C -> Z) (t : transition)
    (data : gmap string pyval) (n : node C) :
  nondecreasing C count ->
  count n <= count (w_node (snd (handler C cfg t data (start n)))).
Proof.
  intros Hnd.
  destruct t.
  - unfold handler, create_order.
    destruct (negb _ || negb _ || negb _); [cbn; lia |].
    unfold pure at 1, bind at 1.
    destruct (Currency.to_wei _ _) as [amount_wei | e']; [| cbn; lia].
    exec; learn_counts Hnd; lia.
  - unfold handler, deposit_funds.
    destruct (negb _ || negb _); [cbn; lia |].
    unfold pure at 1, bind at 1. rewrite to_wei_deposit, to_wei_deposit_price.
    exec; learn_counts Hnd; lia.
  - unfold handler, mark_shipped, order_transition.
    destruct (negb _); [cbn; lia |].
    exec; learn_counts Hnd; lia.
  - unfold handler, confirm_delivery, order_transition.
    destruct (negb _); [cbn; lia |].
    exec; learn_counts Hnd; lia.
Qed.

(** The nonce a run fetched is the answer of the node the run started on. *)
Lemma fetched_nonce_is_lookup (t : transition) (data : gmap string pyval)
    (n : node C) (k : Z) :
  fetched_nonce (w_trace (snd (handler C cfg t data (start n)))) = Some k ->
  exists n', cl_get_transaction_count C (account_address cfg) n = (Ok k, n').
Proof.
  destruct t.
  - unfold handler, create_order.
    destruct (negb _ || negb _ || negb _); [discriminate |].
    unfold pure at 1, bind at 1.
    destruct (Currency.to_wei _ _) as [amount_wei | e']; [| discriminate].
    unfold_ops; cbn.
    destruct (cl_get_transaction_count C _ n) as [[nonce | e] n0] eqn:Hnonce; cbn.
    + repeat (exec_step; cbn); intros H; injection H as <-; eauto.
    + discriminate.
  - unfold handler, deposit_funds.
    destruct (negb _ || negb _); [discriminate |].
    unfold pure at 1, bind at 1. rewrite to_wei_deposit, to_wei_deposit_price.
    unfold_ops; cbn.
    destruct (cl_get_transaction_count C _ n) as [[nonce | e] n0] eqn:Hnonce; cbn.
    + repeat (exec_step; cbn); intros H; injection H as <-; eauto.
    + discriminate.
  - unfold handler, mark_shipped, order_transition.
    destruct (negb _); [discriminate |].
    unfold_ops; cbn.
    destruct (cl_get_transaction_count C _ n) as [[nonce | e] n0] eqn:Hnonce; cbn.
    + repeat (exec_step; cbn); intros H; injection H as <-; eauto.
    + discriminate.
  - unfold handler, confirm_delivery, order_transition.
    destruct (negb _); [discriminate |].
    unfold_ops; cbn.
    destruct (cl_get_transaction_count C _ n) as [[nonce | e] n0] eqn:Hnonce; cbn.
    + repeat (exec_step; cbn); intros H; injection H as <-; eauto.
    + discriminate.
Qed.

(** Every envelope carries the nonce the run fetched first, and the run
    fetched it once. *)
Lemma built_nonce_is_fetched (t : transition) (data : gmap string pyval)
    (n : node C) (f : fcall) (tx : gmap string pyval) (r : result transaction) :
  In (BuildTransaction f tx r) (w_trace (snd (handler C cfg t data (start n)))) ->
  exists k rest,
    w_trace (snd (handler C cfg t data (start n)))
      = GetTransactionCount (account_address cfg) (Ok k) :: rest
    /\ tx !! "nonce" = Some (PInt k)
    /\ (forall a q, ~ In (GetTransactionCount a q) rest).
Proof.
  destruct t.
  - unfold handler, create_order.
    destruct (negb _ || negb _ || negb _); [intros []|].
    unfold pure at 1, bind at 1.
    destruct (Currency.to_wei _ _) as [amount_wei | e']; [| intros []].
    exec; intros Hin; cases_in Hin.
    all: injection Hin as <- <- <-.
    all: eexists _, _; split; [reflexivity | split; [reflexivity |]].
    all: intros a q H'; cases_in H'.
  - unfold handler, deposit_funds.
    destruct (negb _ || negb _); [intros []|].
    unfold pure at 1, bind at 1. rewrite to_wei_deposit, to_wei_deposit_price.
    exec; intros Hin; cases_in Hin.
    all: injection Hin as <- <- <-.
    all: eexists _, _; split; [reflexivity | split; [reflexivity |]].
    all: intros a q H'; cases_in H'.
  - unfold handler, mark_shipped, order_transition.
    destruct (negb _); [intros []|].
    exec; intros Hin; cases_in Hin.
    all: injection Hin as <- <- <-.
    all: eexists _, _; split; [reflexivity | split; [reflexivity |]].
    all: intros a q H'; cases_in H'.
  - unfold handler, confirm_delivery, order_transition.
    destruct (negb _); [intros []|].
    exec; intros Hin; cases_in Hin.
    all: injection Hin as <- <- <-.
    all: eexists _, _; split; [reflexivity | split; [reflexivity |]].
    all: intros a q H'; cases_in H'.
Qed.

End Nonces.


Lemma stub_nondecreasing : nondecreasing (Stub.client false) (fun n => n).
Proof.
  constructor; cbn; intros; try (injection H as <- <-); try congruence; lia.
Qed.


(** ** Chain faults *)

(** C4. In every write transition, when an interaction of the chain
    phase (nonce fetch, function encoding, chain id or gas lookup, gas
    estimate, envelope construction, signing, submission) raises, the
    handler answers with status 500 and a body that carries exactly the
    message of that exception under "error" and no transaction hash; the
    failed interaction is the last one of the run (nothing is retried or
    attempted after it), and all interactions before it succeeded. *)
Theorem chain_fault_surfaces
    (C : ChainClient) (cfg : config) (t : transition)
    (data : gmap string pyval) (n : node C) (ev : event) (e : exn) :
  In ev (w_trace (snd (handler C cfg t data (start n)))) ->
  event_raised ev = Some e ->
  fst (handler C cfg t data (start n))
    = Ok (mkResponse 500 [("error", PStr (exn_str e))])
  /\ ~ In "txHash" (map fst (body (chain_error e)))
  /\ last (w_trace (snd (handler C cfg t data (start n)))) = Some ev
  /\ Forall (fun ev' => event_raised ev' = None)
       (removelast (w_trace (snd (handler C cfg t data (start n))))).
Proof.
  intros Hin Hev.
  assert (Hno : ~ In "txHash" (map fst (body (chain_error e)))).
  { simpl. intros [H | []]. discriminate H. }
  revert Hin.
  destruct t.
  - unfold handler, create_order.
    destruct (negb _ || negb _ || negb _); [intros []|].
    unfold pure at 1, bind at 1.
    destruct (Currency.to_wei _ _) as [amount_wei | e']; [| intros []].
    exec; intros Hin; cases_in Hin; subst ev; try discriminate Hev.
    all: injection Hev as <-.
    all: repeat split; try assumption; try reflexivity.
    all: cbn [removelast]; repeat constructor.
  - unfold handler, deposit_funds.
    destruct (negb _ || negb _); [intros []|].
    unfold pure at 1, bind at 1. rewrite to_wei_deposit, to_wei_deposit_price.
    exec; intros Hin; cases_in Hin; subst ev; try discriminate Hev.
    all: injection Hev as <-.
    all: repeat split; try assumption; try reflexivity.
    all: cbn [removelast]; repeat constructor.
  - unfold handler, mark_shipped, order_transition.
    destruct (negb _); [intros []|].
    exec; intros Hin; cases_in Hin; subst ev; try discriminate Hev.
    all: injection Hev as <-.
    all: repeat split; try assumption; try reflexivity.
    all: cbn [removelast]; repeat constructor.
  - unfold handler, confirm_delivery, order_transition.
    destruct (negb _); [intros []|].
    exec; intros Hin; cases_in Hin; subst ev; try discriminate Hev.
    all: injection Hev as <-.
    all: repeat split; try assumption; try reflexivity.
    all: cbn [removelast]; repeat constructor.
Qed.

(** A node that reverts the submission: the handler answers 500 with the
    node's message. *)
Lemma chain_fault_surfaces_witness :
  In (SendRawTransaction "signed"
        (Raise (mkExn "ContractLogicError" "execution reverted")))
     (w_trace (snd (handler (Stub.client true) Stub.cfg CreateOrder
                      (Stub.create_request (PFloat "1.0"))
                      (@start (Stub.client true) 5))))
  /\ fst (handler (Stub.client true) Stub.cfg CreateOrder
            (Stub.create_request (PFloat "1.0")) (@start (Stub.client true) 5))
     = Ok (mkResponse 500 [("error", PStr "execution reverted")]).
Proof.
  assert (Hin : In (SendRawTransaction "signed"
                      (Raise (mkExn "ContractLogicError" "execution reverted")))
     (w_trace (snd (handler (Stub.client true) Stub.cfg CreateOrder
                      (Stub.create_request (PFloat "1.0"))
                      (@start (Stub.client true) 5))))).
  { vm_compute. do 6 right. left. reflexivity. }
  split; [exact Hin |].
  exact (proj1 (chain_fault_surfaces (Stub.client true) Stub.cfg CreateOrder
                  _ _ _ _ Hin eq_refl)).
Defined.

(** ** GetOrder *)

Section GetOrder.

Context (C : ChainClient).

(** [get_order] never lets an exception out: it answers 200 or 500. *)
Lemma get_order_answers (order_id : Z) (n : node C) :
  exists resp, fst (get_order C order_id (start n)) = Ok resp
               /\ (status resp = 200 \/ exists e, resp = chain_error e).
Proof.
  unfold get_order. exec.
  1: { eexists; split; [reflexivity | right; eauto]. }
  2: { eexists; split; [reflexivity | right; eauto]. }
  destruct order as [|o0 [|o1 [|o2 [|o3 [|o4 [|o5 [|o6 rest]]]]]]]; cbn;
    destruct (cl_fromWei C) as [fromWei | e]; cbn;
    try (destruct (fromWei _ "ether"); cbn).
  all: eexists; split; [reflexivity |]; try (left; reflexivity); right; eauto.
Qed.

End GetOrder.




(** ** CreateOrder: the amount passed to the contract call *)

(** Whatever integer [to_wei] returns for the amount is the second
    argument of every [createOrder] call the run makes. *)
Lemma create_order_calls
    (C : ChainClient) (cfg : config) (data : gmap string pyval) (n : node C)
    (amount_wei : Z) :
  truthy (dict_get data "supplier") = true ->
  truthy (dict_get data "amount") = true ->
  truthy (dict_get data "vin") = true ->
  Currency.to_wei (dict_get data "amount") "ether" = Ok amount_wei ->
  (exists r rest,
     w_trace (snd (create_order C cfg data (start n)))
       = GetTransactionCount (account_address cfg) r :: rest)
  /\ (forall name args r,
        In (FunctionCall name args r) (w_trace (snd (create_order C cfg data (start n)))) ->
        name = "createOrder"
        /\ args = [dict_get data "supplier"; PInt amount_wei; dict_get data "vin";
                   PStr (iso_uri cfg)])
  /\ (forall f tx r,
        In (BuildTransaction f tx r) (w_trace (snd (create_order C cfg data (start n)))) ->
        f = mkCall "createOrder"
              [dict_get data "supplier"; PInt amount_wei; dict_get data "vin";
               PStr (iso_uri cfg)]).
Proof.
  intros Hs Ha Hv Hwei.
  unfold create_order. rewrite Hs, Ha, Hv. cbn [negb orb].
  unfold pure at 1, bind at 1. rewrite Hwei.
  split; [| split].
  - exec; eexists _, _; reflexivity.
  - intros name args r. exec; intros Hin; cases_in Hin.
    all: injection Hin as <- <- <-; split; reflexivity.
  - intros f tx r. exec; intros Hin; cases_in Hin.
    all: injection Hin as <- <- <-; reflexivity.
Qed.


Lemma written_one_and_a_half :
  written (PFloat "1.5") 15 (-1).
Proof.
  cbn [written]. exists ["1"%char], ["5"%char].
  repeat split; try reflexivity; [discriminate | cbn; lia].
Qed.



(** ** The round trip through wei *)




(** * Further properties of the handlers *)

(** ** The attempts behind the handlers *)

Section AttemptFacts.

Context (C : ChainClient) (cfg : config).

(** Every run of a write handler is a rejection by the guard, an
    exception of the conversion in CreateOrder, or an attempt. *)
Lemma handler_cases (t : transition) (data : gmap string pyval) (w : world C) :
  (guard_ok t data = false /\ handler C cfg t data w = (Ok validation_error, w))
  \/ (guard_ok t data = true /\ t = CreateOrder
      /\ exists e, Currency.to_wei (dict_get data "amount") "ether" = Raise e
                   /\ handler C cfg t data w = (Raise e, w))
  \/ (guard_ok t data = true /\ t <> DepositFunds
      /\ exists amount_wei,
           (t = CreateOrder ->
            Currency.to_wei (dict_get data "amount") "ether" = Ok amount_wei)
           /\ handler C cfg t data w
              = flat_attempt C cfg (fst (flat_call cfg t data amount_wei))
                  (snd (flat_call cfg t data amount_wei)) w)
  \/ (guard_ok t data = true /\ t = DepositFunds
      /\ handler C cfg t data w = deposit_attempt C cfg (dict_get data "orderId") w).
Proof.
  destruct t; unfold guard_ok, handler, create_order, deposit_funds, mark_shipped,
    confirm_delivery, order_transition; cbn [required forallb].
  - destruct (truthy (dict_get data "supplier")); cbn [negb orb andb]; [| left; auto].
    destruct (truthy (dict_get data "amount")); cbn [negb orb andb]; [| left; auto].
    destruct (truthy (dict_get data "vin")); cbn [negb orb andb]; [| left; auto].
    unfold pure at 1, bind at 1.
    destruct (Currency.to_wei (dict_get data "amount") "ether") as [amount_wei | e] eqn:E.
    + right; right; left. split; [reflexivity | split; [discriminate |]].
      exists amount_wei. split; [auto | reflexivity].
    + right; left. split; [reflexivity | split; [reflexivity |]]. eauto.
  - destruct (truthy (dict_get data "orderId")); cbn [negb orb andb]; [| left; auto].
    destruct (truthy (dict_get data "amount")); cbn [negb orb andb]; [| left; auto].
    right; right; right. split; [reflexivity | split; [reflexivity |]].
    unfold pure at 1, bind at 1. rewrite to_wei_deposit.
    unfold deposit_attempt, deposit_dict. rewrite to_wei_deposit_price. reflexivity.
  - destruct (truthy (dict_get data "orderId")); cbn [negb orb andb]; [| left; auto].
    right; right; left. split; [reflexivity | split; [discriminate |]].
    exists 0. split; [discriminate | reflexivity].
  - destruct (truthy (dict_get data "orderId")); cbn [negb orb andb]; [| left; auto].
    right; right; left. split; [reflexivity | split; [discriminate |]].
    exists 0. split; [discriminate | reflexivity].
Qed.


(** What a flat-gas attempt does, whatever the client answers. *)
Lemma flat_attempt_run (name : string) (args : list pyval) (n : node C) :
  let run := flat_attempt C cfg name args (start n) in
  (exists rest, steps MarkShipped = (map kind_of (w_trace (snd run)) ++ rest)%list)
  /\ (forall name' args' r,
        In (FunctionCall name' args' r) (w_trace (snd run)) ->
        name' = name /\ args' = args)
  /\ (forall f tx r,
        In (BuildTransaction f tx r) (w_trace (snd run)) ->
        f = mkCall name args
        /\ exists cid price nonce,
             tx = flat_dict cid price nonce
             /\ In (ChainId (Ok cid)) (w_trace (snd run))
             /\ In (GasPrice (Ok price)) (w_trace (snd run))
             /\ In (GetTransactionCount (account_address cfg) (Ok nonce))
                   (w_trace (snd run)))
  /\ (forall raw r,
        In (SendRawTransaction raw r) (w_trace (snd run)) ->
        exists e1 e2 e3 e4 f tx t,
          w_trace (snd run)
            = [e1; e2; e3; e4; BuildTransaction f tx (Ok t);
               SignTransaction t (Ok raw); SendRawTransaction raw r]
          /\ Forall (fun ev => kind_of ev <> KSend) [e1; e2; e3; e4])
  /\ (exists resp,
        fst run = Ok resp
        /\ ((exists raw h,
               last (w_trace (snd run)) = Some (SendRawTransaction raw (Ok h))
               /\ resp = success C h
               /\ map kind_of (w_trace (snd run)) = steps MarkShipped
               /\ Forall (fun ev => event_raised ev = None) (w_trace (snd run)))
            \/ (exists ev e,
                  last (w_trace (snd run)) = Some ev
                  /\ event_raised ev = Some e
                  /\ resp = chain_error e))).
Proof.
  cbv zeta. unfold flat_attempt, steps.
  split; [| split; [| split; [| split]]].
  - exec; eexists; reflexivity.
  - intros name' args' r. exec; intros Hin; cases_in Hin.
    all: injection Hin as <- <- <-; split; reflexivity.
  - intros f tx r. exec; intros Hin; cases_in Hin.
    all: injection Hin as <- <- <-; split; [reflexivity |].
    all: eexists _, _, _; split; [reflexivity |].
    all: split; [do 2 right; left; reflexivity |].
    all: split; [do 3 right; left; reflexivity | left; reflexivity].
  - intros raw r. exec; intros Hin; cases_in Hin.
    all: injection Hin as <- <-.
    all: eexists _, _, _, _, _, _, _; split; [reflexivity |].
    all: repeat constructor; discriminate.
  - exec; eexists; (split; [reflexivity |]).
    all: first [ right; eexists _, _; split; [reflexivity | split; reflexivity]
               | left; eexists _, _; split; [reflexivity |]; split; [reflexivity |];
                 split; [reflexivity | repeat constructor] ].
Qed.

(** What a DepositFunds attempt does, whatever the client answers. *)
Lemma deposit_attempt_run (order_id : pyval) (n : node C) :
  let run := deposit_attempt C cfg order_id (start n) in
  (exists rest, steps DepositFunds = (map kind_of (w_trace (snd run)) ++ rest)%list)
  /\ (forall name' args' r,
        In (FunctionCall name' args' r) (w_trace (snd run)) ->
        name' = "depositFunds" /\ args' = [order_id])
  /\ (forall f tx r,
        In (BuildTransaction f tx r) (w_trace (snd run)) ->
        f = mkCall "depositFunds" [order_id]
        /\ exists cid gas nonce f' tx',
             tx = deposit_dict cid gas nonce
             /\ In (ChainId (Ok cid)) (w_trace (snd run))
             /\ In (EstimateGas f' tx' (Ok gas)) (w_trace (snd run))
             /\ In (GetTransactionCount (account_address cfg) (Ok nonce))
                   (w_trace (snd run)))
  /\ (forall raw r,
        In (SendRawTransaction raw r) (w_trace (snd run)) ->
        exists e1 e2 e3 e4 e5 f tx t,
          w_trace (snd run)
            = [e1; e2; e3; e4; e5; BuildTransaction f tx (Ok t);
               SignTransaction t (Ok raw); SendRawTransaction raw r]
          /\ Forall (fun ev => kind_of ev <> KSend) [e1; e2; e3; e4; e5])
  /\ (exists resp,
        fst run = Ok resp
        /\ ((exists raw h,
               last (w_trace (snd run)) = Some (SendRawTransaction raw (Ok h))
               /\ resp = success C h
               /\ map kind_of (w_trace (snd run)) = steps DepositFunds
               /\ Forall (fun ev => event_raised ev = None) (w_trace (snd run)))
            \/ (exists ev e,
                  last (w_trace (snd run)) = Some ev
                  /\ event_raised ev = Some e
                  /\ resp = chain_error e))).
Proof.
  cbv zeta. unfold deposit_attempt, steps.
  split; [| split; [| split; [| split]]].
  - exec; eexists; reflexivity.
  - intros name' args' r. exec; intros Hin; cases_in Hin.
    all: injection Hin as <- <- <-; split; reflexivity.
  - intros f tx r. exec; intros Hin; cases_in Hin.
    all: injection Hin as <- <- <-; split; [reflexivity |].
    all: eexists _, _, _, _, _; split; [reflexivity |].
    all: split; [do 4 right; left; reflexivity |].
    all: split; [do 2 right; left; reflexivity | left; reflexivity].
  - intros raw r. exec; intros Hin; cases_in Hin.
    all: injection Hin as <- <-.
    all: eexists _, _, _, _, _, _, _, _; split; [reflexivity |].
    all: repeat constructor; discriminate.
  - exec; eexists; (split; [reflexivity |]).
    all: first [ right; eexists _, _; split; [reflexivity | split; reflexivity]
               | left; eexists _, _; split; [reflexivity |]; split; [reflexivity |];
                 split; [reflexivity | repeat constructor] ].
Qed.

End AttemptFacts.

(** ** What every run of a write handler looks like *)

Section Runs.

Context (C : ChainClient) (cfg : config).

Lemma steps_flat (t : transition) : t <> DepositFunds -> steps t = steps MarkShipped.
Proof. destruct t; intros H; try reflexivity. contradiction. Qed.

(** X1. Whatever the request and whatever the client answers, the
    interactions of a write handler are an initial part of one fixed
    sequence: transaction count, contract function, chain id, gas price,
    build, sign, send for CreateOrder, MarkShipped and ConfirmDelivery;
    transaction count, contract function, gas estimate, contract function,
    chain id, build, sign, send for DepositFunds. No handler repeats or
    reorders a step, and none makes a read-only contract call. *)
Theorem interactions_follow_the_steps
    (t : transition) (data : gmap string pyval) (n : node C) :
  exists rest,
    steps t = (map kind_of (w_trace (snd (handler C cfg t data (start n)))) ++ rest)%list.
Proof.
  destruct (handler_cases C cfg t data (start n))
    as [[_ H] | [(_ & _ & e & _ & H) | [(_ & Ht & w & _ & H) | (_ & -> & H)]]];
    rewrite H.
  - exists (steps t). reflexivity.
  - exists (steps t). reflexivity.
  - rewrite (steps_flat t Ht). apply (flat_attempt_run C cfg).
  - apply (deposit_attempt_run C cfg).
Qed.

(** X2. A write handler submits at most once, as its last interaction,
    and what it submits is the raw transaction that signing returned for
    the envelope [build_transaction] returned just before: whenever a
    submission occurs, the run ends with a successful build, a successful
    signature of that envelope and the submission of that signature, and
    nothing before them is a submission. *)
Theorem submitted_once_after_signing
    (t : transition) (data : gmap string pyval) (n : node C)
    (raw : string) (r : result string) :
  In (SendRawTransaction raw r) (w_trace (snd (handler C cfg t data (start n)))) ->
  exists before f tx built,
    w_trace (snd (handler C cfg t data (start n)))
      = (before ++ [BuildTransaction f tx (Ok built);
                    SignTransaction built (Ok raw);
                    SendRawTransaction raw r])%list
    /\ Forall (fun ev => kind_of ev <> KSend) before.
Proof.
  destruct (handler_cases C cfg t data (start n))
    as [[_ H] | [(_ & _ & e & _ & H) | [(_ & Ht & w & _ & H) | (_ & -> & H)]]];
    rewrite H; try (intros []).
  - intros Hin.
    destruct (proj1 (proj2 (proj2 (proj2 (flat_attempt_run C cfg _ _ n)))) raw r Hin)
      as (e1 & e2 & e3 & e4 & f & tx & b & Htr & Hpre).
    exists [e1; e2; e3; e4], f, tx, b. split; [exact Htr | exact Hpre].
  - intros Hin.
    destruct (proj1 (proj2 (proj2 (proj2 (deposit_attempt_run C cfg _ n)))) raw r Hin)
      as (e1 & e2 & e3 & e4 & e5 & f & tx & b & Htr & Hpre).
    exists [e1; e2; e3; e4; e5], f, tx, b. split; [exact Htr | exact Hpre].
Qed.

(** The answer of an attempt: success after an accepted submission, or
    the error of the interaction that failed last. *)
Lemma attempt_answer (t : transition) (data : gmap string pyval) (n : node C) :
  guard_ok t data = true ->
  (forall e, fst (handler C cfg t data (start n)) <> Raise e) ->
  exists resp,
    fst (handler C cfg t data (start n)) = Ok resp
    /\ ((exists raw h,
           last (w_trace (snd (handler C cfg t data (start n))))
             = Some (SendRawTransaction raw (Ok h))
           /\ resp = success C h
           /\ map kind_of (w_trace (snd (handler C cfg t data (start n)))) = steps t
           /\ Forall (fun ev => event_raised ev = None)
                (w_trace (snd (handler C cfg t data (start n)))))
        \/ (exists ev e,
              last (w_trace (snd (handler C cfg t data (start n)))) = Some ev
              /\ event_raised ev = Some e
              /\ resp = chain_error e)).
Proof.
  intros Hg Hno.
  destruct (handler_cases C cfg t data (start n))
    as [[Hf H] | [(_ & _ & e & _ & H) | [(_ & Ht & w & _ & H) | (_ & -> & H)]]].
  - congruence.
  - exfalso. apply (Hno e). rewrite H. reflexivity.
  - rewrite H, (steps_flat t Ht). apply (flat_attempt_run C cfg).
  - rewrite H. apply (deposit_attempt_run C cfg).
Qed.

(** X3. A write handler answers with the validation error exactly when
    one of its required fields is absent or falsy: no failure of the chain
    and no other request is ever answered with status 400 "Missing
    required fields". *)
Theorem rejected_iff_guard_fails
    (t : transition) (data : gmap string pyval) (n : node C) :
  fst (handler C cfg t data (start n)) = Ok validation_error
  <-> exists k, In k (required t) /\ truthy (dict_get data k) = false.
Proof.
  split.
  - intros Hresp.
    destruct (guard_ok t data) eqn:Hg.
    + exfalso.
      destruct (attempt_answer t data n Hg ltac:(intros e; rewrite Hresp; discriminate))
        as (resp & Hr & [(raw & h & _ & -> & _) | (ev & e & _ & _ & ->)]);
        rewrite Hresp in Hr; discriminate Hr.
    + unfold guard_ok in Hg.
      destruct (forallb_forall (fun k => truthy (dict_get data k)) (required t)) as [_ Hall].
      destruct (existsb (fun k => negb (truthy (dict_get data k))) (required t)) eqn:Hex.
      * apply existsb_exists in Hex. destruct Hex as (k & Hin & Hk).
        exists k. split; [exact Hin |]. destruct (truthy (dict_get data k)); [discriminate | reflexivity].
      * exfalso. rewrite Hall in Hg; [discriminate |].
        intros k Hin. destruct (truthy (dict_get data k)) eqn:Hk; [reflexivity |].
        assert (existsb (fun k => negb (truthy (dict_get data k))) (required t) = true).
        { apply existsb_exists. exists k. rewrite Hk. auto. }
        congruence.
  - intros (k & Hin & Hk). rewrite (guard_rejects C cfg t data _ k Hin Hk). reflexivity.
Qed.

(** X4. When a write handler returns a response, its status is 200
    exactly when the last interaction is a submission the node accepted,
    and the response is then the success body with the hash of that
    submission; a 200 means every step of the transition was performed
    and none raised. The status is always 200, 400 or 500. *)
Theorem answered_200_iff_accepted
    (t : transition) (data : gmap string pyval) (n : node C) (resp : response) :
  fst (handler C cfg t data (start n)) = Ok resp ->
  (status resp = 200
   <-> exists raw h,
         last (w_trace (snd (handler C cfg t data (start n))))
           = Some (SendRawTransaction raw (Ok h))
         /\ resp = success C h)
  /\ (status resp = 200 ->
      map kind_of (w_trace (snd (handler C cfg t data (start n)))) = steps t
      /\ Forall (fun ev => event_raised ev = None)
           (w_trace (snd (handler C cfg t data (start n)))))
  /\ (status resp = 200 \/ status resp = 400 \/ status resp = 500).
Proof.
  intros Hresp.
  destruct (guard_ok t data) eqn:Hg.
  - destruct (attempt_answer t data n Hg ltac:(intros e; rewrite Hresp; discriminate))
      as (resp' & Hr & Hcase).
    rewrite Hresp in Hr. injection Hr as <-.
    destruct Hcase as [(raw & h & Hlast & -> & Hk & Hall) | (ev & e & Hlast & Hev & ->)].
    + split; [| split; [auto | left; reflexivity]].
      split; [intros _; eauto | reflexivity].
    + split; [| split; [discriminate | right; right; reflexivity]].
      split; [discriminate |].
      intros (raw & h & Hlast' & _). rewrite Hlast in Hlast'.
      injection Hlast' as ->. discriminate Hev.
  - destruct (handler_cases C cfg t data (start n))
      as [[_ H] | [(Hg' & _) | [(Hg' & _) | (Hg' & _)]]]; try congruence.
    rewrite H in Hresp. injection Hresp as <-. rewrite H.
    split; [| split; [discriminate | right; left; reflexivity]].
    split; [discriminate |]. intros (raw & h & Hlast & _). discriminate Hlast.
Qed.


End Runs.

Lemma submitted_once_after_signing_witness :
  In (SendRawTransaction "signed" (Ok "stub-hash"))
     (w_trace (snd (handler (Stub.client false) Stub.cfg MarkShipped
                      (Stub.order_request (PInt 1)) (@start (Stub.client false) 5))))
  /\ exists before f tx built,
       w_trace (snd (handler (Stub.client false) Stub.cfg MarkShipped
                       (Stub.order_request (PInt 1)) (@start (Stub.client false) 5)))
       = (before ++ [BuildTransaction f tx (Ok built);
                     SignTransaction built (Ok "signed");
                     SendRawTransaction "signed" (Ok "stub-hash")])%list
       /\ Forall (fun ev => kind_of ev <> KSend) before.
Proof.
  assert (Hin : In (SendRawTransaction "signed" (Ok "stub-hash"))
     (w_trace (snd (handler (Stub.client false) Stub.cfg MarkShipped
                      (Stub.order_request (PInt 1)) (@start (Stub.client false) 5)))))
    by (do 6 right; left; reflexivity).
  split; [exact Hin |].
  exact (submitted_once_after_signing (Stub.client false) Stub.cfg MarkShipped
           (Stub.order_request (PInt 1)) 5 "signed" (Ok "stub-hash") Hin).
Defined.

Lemma answered_200_iff_accepted_witness :
  fst (handler (Stub.client false) Stub.cfg MarkShipped
         (Stub.order_request (PInt 1)) (@start (Stub.client false) 5))
  = Ok (mkResponse 200 [("status", PStr "success"); ("txHash", PStr "stub-hash")])
  /\ map kind_of
       (w_trace (snd (handler (Stub.client false) Stub.cfg MarkShipped
                        (Stub.order_request (PInt 1)) (@start (Stub.client false) 5))))
     = steps MarkShipped.
Proof.
  assert (Hresp : fst (handler (Stub.client false) Stub.cfg MarkShipped
         (Stub.order_request (PInt 1)) (@start (Stub.client false) 5))
     = Ok (mkResponse 200 [("status", PStr "success"); ("txHash", PStr "stub-hash")]))
    by reflexivity.
  split; [exact Hresp |].
  exact (proj1 (proj1 (proj2 (answered_200_iff_accepted (Stub.client false) Stub.cfg
                                MarkShipped (Stub.order_request (PInt 1)) 5 _ Hresp))
                  eq_refl)).
Defined.

(** ** What the request and the configuration contribute *)

Section Requests.

Context (C : ChainClient) (cfg : config).

(** X6. A write handler reads the request through its required fields
    only: two requests that agree on them are handled identically (same
    result, same interactions, same node), whatever else they carry. *)
Theorem other_fields_are_ignored
    (t : transition) (data data' : gmap string pyval) (w : world C) :
  (forall k, In k (required t) -> data !! k = data' !! k) ->
  handler C cfg t data w = handler C cfg t data' w.
Proof.
  intros Hsame.
  assert (Hget : forall k, In k (required t) -> dict_get data k = dict_get data' k).
  { intros k Hin. unfold dict_get. rewrite (Hsame k Hin). reflexivity. }
  destruct t; cbn [required] in Hget;
    unfold handler, create_order, deposit_funds, mark_shipped, confirm_delivery,
      order_transition.
  - rewrite (Hget "supplier"), (Hget "amount"), (Hget "vin") by (cbn; tauto). reflexivity.
  - rewrite (Hget "orderId"), (Hget "amount") by (cbn; tauto). reflexivity.
  - rewrite (Hget "orderId") by (cbn; tauto). reflexivity.
  - rewrite (Hget "orderId") by (cbn; tauto). reflexivity.
Qed.

(** X7. DepositFunds, MarkShipped and ConfirmDelivery call the contract
    function of their own name with exactly one argument, the [orderId]
    value of the request as it came (no conversion, no check of its
    type), in every contract call of the run. *)
Theorem order_id_is_forwarded_as_given
    (t : transition) (data : gmap string pyval) (n : node C)
    (name : string) (args : list pyval) (r : result fcall) :
  t <> CreateOrder ->
  In (FunctionCall name args r) (w_trace (snd (handler C cfg t data (start n)))) ->
  args = [dict_get data "orderId"]
  /\ name = match t with
            | DepositFunds => "depositFunds"
            | MarkShipped => "markShipped"
            | _ => "confirmDelivery"
            end
  /\ (r = Ok (mkCall name args) \/ exists e, r = Raise e).
Proof.
  intros Ht.
  assert (Hr : forall f, (match cl_abi_check C f with Some e => Raise e | None => Ok f end
                          = Ok f) \/ exists e,
                 match cl_abi_check C f with Some e => Raise e | None => Ok f end = Raise e).
  { intros f. destruct (cl_abi_check C f); eauto. }
  destruct t; try contradiction;
    unfold handler, deposit_funds, mark_shipped, confirm_delivery, order_transition.
  - destruct (negb _ || negb _); [intros [] |].
    unfold pure at 1, bind at 1. rewrite to_wei_deposit, to_wei_deposit_price.
    exec; intros Hin; cases_in Hin.
    all: injection Hin as <- <- <-; split; [reflexivity | split; [reflexivity |]].
    all: first [left; reflexivity | right; eexists; reflexivity].
  - destruct (negb _); [intros [] |].
    exec; intros Hin; cases_in Hin.
    all: injection Hin as <- <- <-; split; [reflexivity | split; [reflexivity |]].
    all: first [left; reflexivity | right; eexists; reflexivity].
  - destruct (negb _); [intros [] |].
    exec; intros Hin; cases_in Hin.
    all: injection Hin as <- <- <-; split; [reflexivity | split; [reflexivity |]].
    all: first [left; reflexivity | right; eexists; reflexivity].
Qed.

Lemma dom_flat_dict (cid price nonce : Z) :
  dom (flat_dict cid price nonce)
  = ({["chainId"; "gas"; "gasPrice"; "nonce"]} : gset string).
Proof.
  unfold flat_dict. rewrite !dom_insert_L, dom_empty_L. set_solver.
Qed.

Lemma dom_deposit_dict (cid gas nonce : Z) :
  dom (deposit_dict cid gas nonce)
  = ({["chainId"; "gas"; "gasPrice"; "nonce"; "value"]} : gset string).
Proof.
  unfold deposit_dict. rewrite !dom_insert_L, dom_empty_L. set_solver.
Qed.

(** X8. The dictionary a write handler hands to [build_transaction] has
    the keys chainId, gas, gasPrice and nonce, and for DepositFunds also
    value; the other three transitions never set a value. The chain id is
    the one the client reported in the same run, and the envelope built
    is addressed to the configured contract and carries the function call
    it was built from. *)
Theorem transaction_dictionary_keys
    (t : transition) (data : gmap string pyval) (n : node C)
    (f : fcall) (tx : gmap string pyval) (r : result transaction) :
  In (BuildTransaction f tx r) (w_trace (snd (handler C cfg t data (start n)))) ->
  dom tx = match t with
           | DepositFunds => {["chainId"; "gas"; "gasPrice"; "nonce"; "value"]}
           | _ => {["chainId"; "gas"; "gasPrice"; "nonce"]}
           end :> gset string
  /\ (t <> DepositFunds -> tx !! "value" = None)
  /\ (exists cid,
        In (ChainId (Ok cid)) (w_trace (snd (handler C cfg t data (start n))))
        /\ tx !! "chainId" = Some (PInt cid))
  /\ (forall built, r = Ok built ->
        tx_to built = CONTRACT_ADDRESS cfg /\ tx_data built = f).
Proof.
  destruct (handler_cases C cfg t data (start n))
    as [[_ H] | [(_ & _ & e & _ & H) | [(_ & Ht & w & _ & H) | (_ & -> & H)]]];
    rewrite H; try (intros []).
  - intros Hin.
    assert (Hlast : forall built, r = Ok built ->
              tx_to built = CONTRACT_ADDRESS cfg /\ tx_data built = f).
    { revert Hin. unfold flat_attempt.
      exec; intros Hin; cases_in Hin; injection Hin as <- <- <-;
        intros built Hb; try discriminate Hb; injection Hb as <-; split; reflexivity. }
    destruct (proj1 (proj2 (proj2 (flat_attempt_run C cfg _ _ n))) f tx r Hin)
      as (_ & cid & price & nonce & -> & Hcid & _).
    split; [destruct t; try contradiction; apply dom_flat_dict |].
    split; [intros _; reflexivity |].
    split; [exists cid; split; [exact Hcid | reflexivity] | exact Hlast].
  - intros Hin.
    assert (Hlast : forall built, r = Ok built ->
              tx_to built = CONTRACT_ADDRESS cfg /\ tx_data built = f).
    { revert Hin. unfold deposit_attempt.
      exec; intros Hin; cases_in Hin; injection Hin as <- <- <-;
        intros built Hb; try discriminate Hb; injection Hb as <-; split; reflexivity. }
    destruct (proj1 (proj2 (proj2 (deposit_attempt_run C cfg _ n))) f tx r Hin)
      as (_ & cid & gas & nonce & f' & tx' & -> & Hcid & _).
    split; [apply dom_deposit_dict |]. split; [intros Hc; contradiction |].
    split; [exists cid; split; [exact Hcid | reflexivity] | exact Hlast].
Qed.

(** X9. Every contract call of CreateOrder is [createOrder] with four
    arguments: the supplier and the VIN of the request as they came, and
    as fourth argument the document reference "ipfs://" followed by the
    configured [ISO_CID], or "ipfs://None" when none is configured; the
    request has no say in it. *)
Theorem document_reference_is_configuration
    (data : gmap string pyval) (n : node C)
    (name : string) (args : list pyval) (r : result fcall) :
  In (FunctionCall name args r) (w_trace (snd (create_order C cfg data (start n)))) ->
  name = "createOrder"
  /\ List.length args = 4%nat
  /\ nth_error args 0 = Some (dict_get data "supplier")
  /\ nth_error args 2 = Some (dict_get data "vin")
  /\ nth_error args 3
     = Some (PStr ("ipfs://" ++ match ISO_CID cfg with
                                | Some cid => cid
                                | None => "None"
                                end)).
Proof.
  change (create_order C cfg data (start n)) with (handler C cfg CreateOrder data (start n)).
  destruct (handler_cases C cfg CreateOrder data (start n))
    as [[_ H] | [(_ & _ & e & _ & H) | [(_ & Ht & w & _ & H) | (_ & Ht & H)]]];
    try discriminate Ht; rewrite H; try (intros []).
  intros Hin.
  destruct (proj1 (proj2 (flat_attempt_run C cfg _ _ n)) name args r Hin) as [-> ->].
  repeat split; reflexivity.
Qed.

End Requests.

Lemma other_fields_are_ignored_witness :
  handler (Stub.client false) Stub.cfg MarkShipped
    (Stub.order_request (PInt 1)) (@start (Stub.client false) 5)
  = handler (Stub.client false) Stub.cfg MarkShipped
      (<["note" := PStr "urgent"]> (Stub.order_request (PInt 1)))
      (@start (Stub.client false) 5).
Proof.
  apply (other_fields_are_ignored (Stub.client false) Stub.cfg MarkShipped).
  intros k [<- | []]. reflexivity.
Defined.

Lemma order_id_is_forwarded_as_given_witness :
  In (FunctionCall "depositFunds" [PInt 1] (Ok (mkCall "depositFunds" [PInt 1])))
     (w_trace (snd (handler (Stub.client false) Stub.cfg DepositFunds
                      (Stub.deposit_request (PFloat "2.5"))
                      (@start (Stub.client false) 5))))
  /\ [PInt 1] = [dict_get (Stub.deposit_request (PFloat "2.5")) "orderId"].
Proof.
  assert (Hin : In (FunctionCall "depositFunds" [PInt 1]
                      (Ok (mkCall "depositFunds" [PInt 1])))
     (w_trace (snd (handler (Stub.client false) Stub.cfg DepositFunds
                      (Stub.deposit_request (PFloat "2.5"))
                      (@start (Stub.client false) 5))))).
  { vm_compute. right. left. reflexivity. }
  split; [exact Hin |].
  exact (proj1 (order_id_is_forwarded_as_given (Stub.client false) Stub.cfg DepositFunds
                  (Stub.deposit_request (PFloat "2.5")) 5 _ _ _
                  ltac:(intros H; discriminate H) Hin)).
Defined.

Lemma transaction_dictionary_keys_witness :
  exists f tx r,
    In (BuildTransaction f tx r)
       (w_trace (snd (handler (Stub.client false) Stub.cfg MarkShipped
                        (Stub.order_request (PInt 1)) (@start (Stub.client false) 5))))
    /\ dom tx = ({["chainId"; "gas"; "gasPrice"; "nonce"]} : gset string).
Proof.
  assert (Hin : In (BuildTransaction (mkCall "markShipped" [PInt 1])
                      (<["chainId" := PInt 1]> (<["gas" := PInt 300000]>
                        (<["gasPrice" := PInt 20]> (<["nonce" := PInt 5]> ∅))))
                      (Ok (mkTransaction "0xContract" (mkCall "markShipped" [PInt 1])
                             (<["value" := PInt 0]> (<["chainId" := PInt 1]>
                               (<["gas" := PInt 300000]> (<["gasPrice" := PInt 20]>
                                 (<["nonce" := PInt 5]> ∅))))))))
                   (w_trace (snd (handler (Stub.client false) Stub.cfg MarkShipped
                        (Stub.order_request (PInt 1)) (@start (Stub.client false) 5))))).
  { do 4 right. left. reflexivity. }
  eexists _, _, _. split; [exact Hin |].
  exact (proj1 (transaction_dictionary_keys (Stub.client false) Stub.cfg MarkShipped
                  _ _ _ _ _ Hin)).
Defined.

Lemma document_reference_is_configuration_witness :
  In (FunctionCall "createOrder"
        [PStr "0xCF10"; PInt 1000000000000000000; PStr "VIN123456"; PStr "ipfs://cid"]
        (Ok (mkCall "createOrder"
               [PStr "0xCF10"; PInt 1000000000000000000; PStr "VIN123456";
                PStr "ipfs://cid"])))
     (w_trace (snd (create_order (Stub.client false) Stub.cfg
                      (Stub.create_request (PFloat "1.0"))
                      (@start (Stub.client false) 5))))
  /\ nth_error
       [PStr "0xCF10"; PInt 1000000000000000000; PStr "VIN123456"; PStr "ipfs://cid"] 3
     = Some (PStr ("ipfs://" ++ match ISO_CID Stub.cfg with
                                | Some cid => cid
                                | None => "None"
                                end)).
Proof.
  assert (Hin : In (FunctionCall "createOrder"
        [PStr "0xCF10"; PInt 1000000000000000000; PStr "VIN123456"; PStr "ipfs://cid"]
        (Ok (mkCall "createOrder"
               [PStr "0xCF10"; PInt 1000000000000000000; PStr "VIN123456";
                PStr "ipfs://cid"])))
     (w_trace (snd (create_order (Stub.client false) Stub.cfg
                      (Stub.create_request (PFloat "1.0"))
                      (@start (Stub.client false) 5))))).
  { vm_compute. right. left. reflexivity. }
  split; [exact Hin |].
  exact (proj2 (proj2 (proj2 (proj2
           (document_reference_is_configuration (Stub.client false) Stub.cfg
              (Stub.create_request (PFloat "1.0")) 5 _ _ _ Hin))))).
Defined.

(** ** Amounts the guard lets through *)

(** Rounding keeps the sign, does not lower the exponent and leaves a
    coefficient of full precision. *)
Lemma fix_prec_rounded (prec : Z) (s : bool) (c e : Z) :
  0 < c -> 1 <= prec ->
  d_sign (Dec.fix_prec prec (mkDecimal s c e)) = s
  /\ e <= d_exp (Dec.fix_prec prec (mkDecimal s c e))
  /\ 0 < d_int (Dec.fix_prec prec (mkDecimal s c e))
  /\ (Dec.ndigits c <= prec -> Dec.fix_prec prec (mkDecimal s c e) = mkDecimal s c e)
  /\ (prec < Dec.ndigits c ->
      10 ^ (prec - 1) <= d_int (Dec.fix_prec prec (mkDecimal s c e))).
Proof.
  intros Hc Hprec.
  destruct (ndigits_bounds c Hc) as (Hn1 & Hlo & Hhi).
  unfold Dec.fix_prec, Dec.is_zero. cbn [d_int d_sign d_exp].
  set (n := Dec.ndigits c) in *.
  destruct (n <=? prec) eqn:E.
  - cbn [orb d_int d_sign d_exp]. apply Z.leb_le in E.
    repeat split; auto; try lia.
  - apply Z.leb_gt in E.
    replace (c =? 0) with false by (symmetry; apply Z.eqb_neq; lia).
    cbn [orb].
    set (k := n - prec).
    pose proof (pow10_pos k ltac:(lia)) as Hk.
    pose proof (pow10_pos (prec - 1) ltac:(lia)) as Hp.
    assert (Hq : 10 ^ (prec - 1) <= c / 10 ^ k).
    { apply Z.div_le_lower_bound; [lia |].
      rewrite <- pow10_split by lia.
      replace (k + (prec - 1)) with (n - 1) by lia. exact Hlo. }
    set (q := c / 10 ^ k) in *.
    set (q' := if (5 * 10 ^ (k - 1) <? c mod 10 ^ k)
                  || (c mod 10 ^ k =? 5 * 10 ^ (k - 1)) && Z.odd q
               then q + 1 else q).
    assert (Hq' : 10 ^ (prec - 1) <= q').
    { unfold q'. destruct (_ || _); lia. }
    destruct (Dec.ndigits q' <=? prec) eqn:E'; cbn [d_int d_sign d_exp].
    + repeat split; try lia.
    + apply Z.leb_gt in E'.
      destruct (ndigits_bounds q' ltac:(lia)) as (_ & Hlo' & _).
      assert (Hbig : 10 ^ prec <= q').
      { eapply Z.le_trans; [| exact Hlo']. apply pow10_le. lia. }
      assert (Hdiv : 10 ^ (prec - 1) <= q' / 10).
      { apply Z.div_le_lower_bound; [lia |].
        replace (10 * 10 ^ (prec - 1)) with (10 ^ (1 + (prec - 1)))
          by (rewrite pow10_split by lia; reflexivity).
        replace (1 + (prec - 1)) with prec by lia. exact Hbig. }
      repeat split; try lia.
Qed.

(** [to_wei] refuses an integer amount below zero or above the wei range. *)
Lemma to_wei_integer_refused (z : Z) :
  z < 0 \/ Currency.MAX_WEI < z * 10 ^ 18 ->
  Currency.to_wei (PInt z) "ether" = Raise Currency.out_of_range
  \/ Currency.to_wei (PInt z) "ether" = Raise Overflow.
Proof.
  intros Hz.
  assert (HM : 0 <= Currency.MAX_WEI < 10 ^ 78)
    by (split; [apply Z.leb_le | apply Z.ltb_lt]; reflexivity).
  assert (Hnz : z <> 0) by lia.
  unfold Currency.to_wei. rewrite units_ether. cbn [Currency.read_number].
  change (Dec.of_Z z) with (mkDecimal (z <? 0) (Z.abs z) 0).
  replace (Dec.is_zero (mkDecimal (z <? 0) (Z.abs z) 0)) with false
    by (symmetry; apply Z.eqb_neq; cbn [d_int]; lia).
  unfold Currency.convert, Dec.mul. cbn [d_sign d_int d_exp].
  rewrite xorb_false_r, Z.add_0_r.
  assert (Hc : 0 < Z.abs z * 10 ^ 18) by lia.
  destruct (fix_prec_rounded 999 (z <? 0) (Z.abs z * 10 ^ 18) 0 Hc ltac:(lia))
    as (Hs & He & Hpos & Hid & Hround).
  set (r := Dec.fix_prec 999 (mkDecimal (z <? 0) (Z.abs z * 10 ^ 18) 0)) in *.
  destruct (negb (Dec.is_zero r) && (Dec.Emax <? Dec.adjusted r)); [right; reflexivity |].
  left.
  replace (Dec.ltb r (Dec.of_Z Currency.MIN_WEI) || Dec.ltb (Dec.of_Z Currency.MAX_WEI) r)
    with true; [reflexivity |].
  symmetry. apply orb_true_iff.
  pose proof (pow10_pos (d_exp r) He) as Hp.
  unfold Dec.ltb, Dec.scaled, Dec.signed, Dec.of_Z.
  change (Currency.MIN_WEI <? 0) with false.
  change (Currency.MAX_WEI <? 0) with false.
  change (Z.abs Currency.MIN_WEI) with 0.
  change (Z.abs Currency.MAX_WEI) with Currency.MAX_WEI.
  cbn [d_sign d_int d_exp]. rewrite Hs.
  rewrite (Z.min_r (d_exp r) 0), (Z.min_l 0 (d_exp r)) by lia.
  rewrite !Z.sub_0_r. change (10 ^ 0) with 1.
  destruct Hz as [Hneg | Hbig].
  - left. replace (z <? 0) with true by (symmetry; apply Z.ltb_lt; lia).
    apply Z.ltb_lt. nia.
  - right. replace (z <? 0) with false by (symmetry; apply Z.ltb_ge; lia).
    apply Z.ltb_lt.
    destruct (Z.le_gt_cases (Dec.ndigits (Z.abs z * 10 ^ 18)) 999) as [Hle | Hgt].
    + rewrite (Hid Hle). cbn [d_int d_exp]. change (10 ^ 0) with 1.
      rewrite Z.abs_eq by lia. lia.
    + specialize (Hround Hgt).
      assert (10 ^ 78 <= 10 ^ (999 - 1)) by (apply pow10_le; lia).
      nia.
Qed.

Section Amounts.

Context (C : ChainClient) (cfg : config).

(** X10. A CreateOrder request with truthy supplier and VIN whose amount
    is a negative integer, or an integer of more than [2^256 - 1] wei,
    passes the guard and makes the conversion raise (out of range, or
    the decimal overflow): the exception leaves the handler with nothing
    asked of the chain. *)
Theorem integer_amount_out_of_range_escapes
    (data : gmap string pyval) (w : world C) (z : Z) :
  truthy (dict_get data "supplier") = true ->
  truthy (dict_get data "vin") = true ->
  data !! "amount" = Some (PInt z) ->
  z < 0 \/ Currency.MAX_WEI < z * 10 ^ 18 ->
  create_order C cfg data w = (Raise Currency.out_of_range, w)
  \/ create_order C cfg data w = (Raise Overflow, w).
Proof.
  intros Hs Hv Ha Hz.
  assert (Hget : dict_get data "amount" = PInt z)
    by (unfold dict_get; rewrite Ha; reflexivity).
  assert (Ht : truthy (PInt z) = true).
  { assert (0 <= Currency.MAX_WEI) by (apply Z.leb_le; reflexivity).
    cbn. replace (z =? 0) with false; [reflexivity |]. symmetry. apply Z.eqb_neq. lia. }
  unfold create_order. rewrite Hs, Hv, Hget, Ht. cbn [negb orb].
  unfold pure at 1, bind at 1.
  destruct (to_wei_integer_refused z Hz) as [-> | ->]; [left | right]; reflexivity.
Qed.

(** X11. A CreateOrder request with truthy supplier and VIN whose amount
    is [true], a non-empty array or a non-empty object passes the guard,
    and the conversion raises the TypeError for an unsupported type: the
    exception leaves the handler with nothing asked of the chain. *)
Theorem non_numeric_type_amount_escapes
    (data : gmap string pyval) (w : world C) (amount : pyval) :
  truthy (dict_get data "supplier") = true ->
  truthy (dict_get data "vin") = true ->
  data !! "amount" = Some amount ->
  truthy amount = true ->
  match amount with PBool _ | PList _ | PDict _ => True | _ => False end ->
  create_order C cfg data w
  = (Raise (TypeError "Unsupported type.  Must be one of integer, float, or string"), w).
Proof.
  intros Hs Hv Ha Ht Hty.
  assert (Hget : dict_get data "amount" = amount)
    by (unfold dict_get; rewrite Ha; reflexivity).
  unfold create_order. rewrite Hs, Hv, Hget, Ht. cbn [negb orb].
  unfold pure at 1, bind at 1.
  destruct amount; try contradiction; reflexivity.
Qed.

(** X12. The guard tests the amount for truth, not for value: a string
    numeral that denotes zero ("0", "0.0", "0e5") is truthy, so
    CreateOrder goes on to the chain and every [createOrder] call of the
    run carries the amount 0 wei. *)
Theorem zero_numeral_amount_is_sent
    (data : gmap string pyval) (n : node C) (s : string) (d : Decimal) :
  truthy (dict_get data "supplier") = true ->
  truthy (dict_get data "vin") = true ->
  data !! "amount" = Some (PStr s) ->
  Numeral.parse s = Numeral.Finite d ->
  d_int d = 0 ->
  (exists r rest,
     w_trace (snd (create_order C cfg data (start n)))
       = GetTransactionCount (account_address cfg) r :: rest)
  /\ (forall name args r,
        In (FunctionCall name args r) (w_trace (snd (create_order C cfg data (start n)))) ->
        nth_error args 1 = Some (PInt 0)).
Proof.
  intros Hs Hv Ha Hp Hd.
  assert (Hget : dict_get data "amount" = PStr s)
    by (unfold dict_get; rewrite Ha; reflexivity).
  assert (Hne : truthy (dict_get data "amount") = true).
  { rewrite Hget. cbn. destruct s; [| reflexivity].
    vm_compute in Hp. discriminate Hp. }
  assert (Hwei : Currency.to_wei (dict_get data "amount") "ether" = Ok 0).
  { rewrite Hget. unfold Currency.to_wei. rewrite units_ether.
    cbn [Currency.read_number]. rewrite Hp. unfold Dec.is_zero. rewrite Hd. reflexivity. }
  destruct (create_order_calls C cfg data n 0 Hs Hne Hv Hwei) as (Hfirst & Hcalls & _).
  split; [exact Hfirst |].
  intros name args r Hin. destruct (Hcalls name args r Hin) as [_ ->]. reflexivity.
Qed.

End Amounts.

Lemma integer_amount_out_of_range_escapes_witness :
  create_order (Stub.client false) Stub.cfg (Stub.create_request (PInt (-1)))
    (@start (Stub.client false) 5)
  = (Raise Currency.out_of_range, @start (Stub.client false) 5)
  \/ create_order (Stub.client false) Stub.cfg (Stub.create_request (PInt (-1)))
       (@start (Stub.client false) 5)
     = (Raise Overflow, @start (Stub.client false) 5).
Proof.
  exact (integer_amount_out_of_range_escapes (Stub.client false) Stub.cfg
           (Stub.create_request (PInt (-1))) (@start (Stub.client false) 5) (-1)
           eq_refl eq_refl eq_refl (or_introl (eq_refl : -1 < 0))).
Defined.

Lemma non_numeric_type_amount_escapes_witness :
  create_order (Stub.client false) Stub.cfg (Stub.create_request (PBool true))
    (@start (Stub.client false) 5)
  = (Raise (TypeError "Unsupported type.  Must be one of integer, float, or string"),
     @start (Stub.client false) 5).
Proof.
  exact (non_numeric_type_amount_escapes (Stub.client false) Stub.cfg
           (Stub.create_request (PBool true)) (@start (Stub.client false) 5) (PBool true)
           eq_refl eq_refl eq_refl eq_refl I).
Defined.

Lemma zero_numeral_amount_is_sent_witness :
  Numeral.parse "0.0" = Numeral.Finite (mkDecimal false 0 (-1))
  /\ exists r rest,
       w_trace (snd (create_order (Stub.client false) Stub.cfg
                       (Stub.create_request (PStr "0.0")) (@start (Stub.client false) 5)))
       = GetTransactionCount "0xSigner" r :: rest.
Proof.
  assert (Hp : Numeral.parse "0.0" = Numeral.Finite (mkDecimal false 0 (-1)))
    by (vm_compute; reflexivity).
  split; [exact Hp |].
  exact (proj1 (zero_numeral_amount_is_sent (Stub.client false) Stub.cfg
                  (Stub.create_request (PStr "0.0")) 5 "0.0" _
                  eq_refl eq_refl eq_refl Hp eq_refl)).
Defined.

(** ** GetOrder: what it asks of the chain *)

Section Reads.

Context (C : ChainClient).

(** The pure part of [get_order] leaves the world as the two chain
    operations left it. *)
Lemma get_order_world (order_id : Z) (n : node C) :
  snd (get_order C order_id (start n))
  = match cl_abi_check C (mkCall "orders" [PInt order_id]) with
    | Some e => mkWorld n [FunctionCall "orders" [PInt order_id] (Raise e)]
    | None =>
        mkWorld (snd (cl_call C (mkCall "orders" [PInt order_id]) n))
          [FunctionCall "orders" [PInt order_id] (Ok (mkCall "orders" [PInt order_id]));
           Call (mkCall "orders" [PInt order_id])
                (fst (cl_call C (mkCall "orders" [PInt order_id]) n))]
    end.
Proof.
  unfold get_order. unfold_ops. cbn.
  destruct (cl_abi_check C _) as [e |]; cbn; [reflexivity |].
  destruct (cl_call C _ n) as [[order | e] n']; cbn; [| reflexivity].
  destruct order as [|o0 [|o1 [|o2 [|o3 [|o4 [|o5 [|o6 rest]]]]]]]; cbn;
    try reflexivity;
    destruct (cl_fromWei C) as [fromWei | e']; cbn; try reflexivity;
    destruct (fromWei _ "ether"); reflexivity.
Qed.

(** X13. GetOrder asks the chain for nothing but the [orders] function of
    the given id and one read-only call of it: every interaction of a run
    is one of these two, the call comes second and last, and the node is
    left as that call left it. No transaction is built, signed or
    sent. *)
Theorem get_order_only_reads (order_id : Z) (n : node C) (ev : event) :
  In ev (w_trace (snd (get_order C order_id (start n)))) ->
  (exists r, ev = FunctionCall "orders" [PInt order_id] r)
  \/ (exists r,
        ev = Call (mkCall "orders" [PInt order_id]) r
        /\ w_trace (snd (get_order C order_id (start n)))
           = [FunctionCall "orders" [PInt order_id] (Ok (mkCall "orders" [PInt order_id]));
              ev]
        /\ cl_call C (mkCall "orders" [PInt order_id]) n
           = (r, w_node (snd (get_order C order_id (start n))))).
Proof.
  rewrite get_order_world.
  destruct (cl_abi_check C _) as [e |]; cbn [w_trace w_node].
  - intros [<- | []]. left. eexists. reflexivity.
  - destruct (cl_call C _ n) as [r n']. cbn [fst snd].
    intros [<- | [<- | []]].
    + left. eexists. reflexivity.
    + right. eexists. split; [reflexivity | split; reflexivity].
Qed.

(** X14. When the node answers the read with fewer than seven fields,
    GetOrder never returns a partial snapshot: it answers 500; and when
    the function lookup and the conversion of the stored amount go
    through, the error reported is the one of the first missing index,
    "list index out of range". *)
Theorem get_order_short_order
    (order_id : Z) (n n' : node C) (order : list pyval) :
  cl_call C (mkCall "orders" [PInt order_id]) n = (Ok order, n') ->
  (List.length order < 7)%nat ->
  (exists e, fst (get_order C order_id (start n)) = Ok (chain_error e))
  /\ (forall fromWei,
        cl_abi_check C (mkCall "orders" [PInt order_id]) = None ->
        cl_fromWei C = Ok fromWei ->
        (forall o3, nth_error order 3 = Some o3 -> exists a, fromWei o3 "ether" = Ok a) ->
        fst (get_order C order_id (start n))
        = Ok (mkResponse 500 [("error", PStr "list index out of range")])).
Proof.
  intros Hcall Hlen. split.
  - unfold get_order. unfold_ops. cbn.
    destruct (cl_abi_check C _) as [e |]; cbn; [eexists; reflexivity |].
    rewrite Hcall. cbn.
    destruct order as [|o0 [|o1 [|o2 [|o3 [|o4 [|o5 [|o6 rest]]]]]]]; cbn;
      try (cbn in Hlen; lia); try (eexists; reflexivity);
      destruct (cl_fromWei C) as [fromWei | e']; cbn; try (eexists; reflexivity);
      destruct (fromWei _ "ether"); eexists; reflexivity.
  - intros fromWei Habi Hattr Hconv.
    unfold get_order. unfold_ops. cbn. rewrite Habi. cbn. rewrite Hcall. cbn.
    rewrite Hattr.
    destruct order as [|o0 [|o1 [|o2 [|o3 [|o4 [|o5 [|o6 rest]]]]]]]; cbn;
      try reflexivity; try (cbn in Hlen; lia).
    all: destruct (Hconv o3 eq_refl) as [a ->]; reflexivity.
Qed.

(** X15. When the client has no attribute [fromWei] (the lookup raises)
    and the node answered with at least three fields, GetOrder has made
    its read and answers 500 with the text of that exception: the
    snapshot is lost although the read succeeded. *)
Theorem get_order_without_fromWei
    (order_id : Z) (n n' : node C) (order : list pyval) (e : exn) :
  cl_abi_check C (mkCall "orders" [PInt order_id]) = None ->
  cl_call C (mkCall "orders" [PInt order_id]) n = (Ok order, n') ->
  (3 <= List.length order)%nat ->
  cl_fromWei C = Raise e ->
  get_order C order_id (start n)
  = (Ok (mkResponse 500 [("error", PStr (exn_str e))]),
     mkWorld n'
       [FunctionCall "orders" [PInt order_id] (Ok (mkCall "orders" [PInt order_id]));
        Call (mkCall "orders" [PInt order_id]) (Ok order)]).
Proof.
  intros Habi Hcall Hlen Hattr.
  unfold get_order. unfold_ops. cbn. rewrite Habi. cbn. rewrite Hcall. cbn.
  rewrite Hattr.
  destruct order as [|o0 [|o1 [|o2 rest]]]; cbn in Hlen; try lia.
  reflexivity.
Qed.

End Reads.

Lemma get_order_short_order_witness :
  fst (get_order (Probe.client [PInt 1; PStr "0xBuyer"] (Ok Stub.fromWei)) 1
         (@start (Probe.client [PInt 1; PStr "0xBuyer"] (Ok Stub.fromWei)) 5))
  = Ok (mkResponse 500 [("error", PStr "list index out of range")]).
Proof.
  refine (proj2 (get_order_short_order
                   (Probe.client [PInt 1; PStr "0xBuyer"] (Ok Stub.fromWei))
                   1 5 5 [PInt 1; PStr "0xBuyer"] eq_refl _)
            Stub.fromWei eq_refl eq_refl _).
  - cbn. lia.
  - intros o3 H. discriminate H.
Defined.

Lemma get_order_without_fromWei_witness :
  get_order (Probe.client Stub.order (Raise Probe.no_fromWei)) 1
    (@start (Probe.client Stub.order (Raise Probe.no_fromWei)) 5)
  = (Ok (mkResponse 500 [("error", PStr "'Web3' object has no attribute 'fromWei'")]),
     @mkWorld (Probe.client Stub.order (Raise Probe.no_fromWei)) 5
       [FunctionCall "orders" [PInt 1] (Ok (mkCall "orders" [PInt 1]));
        Call (mkCall "orders" [PInt 1]) (Ok Stub.order)]).
Proof.
  refine (get_order_without_fromWei (Probe.client Stub.order (Raise Probe.no_fromWei))
            1 5 5 Stub.order Probe.no_fromWei eq_refl eq_refl _ eq_refl).
  cbn. lia.
Defined.

Lemma get_order_only_reads_witness :
  In (Call (mkCall "orders" [PInt 1]) (Ok []))
     (w_trace (snd (get_order (Probe.client [] (Ok Stub.fromWei)) 1
                      (@start (Probe.client [] (Ok Stub.fromWei)) 5))))
  /\ ((exists r, Call (mkCall "orders" [PInt 1]) (Ok [])
                 = FunctionCall "orders" [PInt 1] r)
      \/ exists r, Call (mkCall "orders" [PInt 1]) (Ok [])
                   = Call (mkCall "orders" [PInt 1]) r
                   /\ w_trace (snd (get_order (Probe.client [] (Ok Stub.fromWei)) 1
                                      (@start (Probe.client [] (Ok Stub.fromWei)) 5)))
                      = [FunctionCall "orders" [PInt 1] (Ok (mkCall "orders" [PInt 1]));
                         Call (mkCall "orders" [PInt 1]) (Ok [])]
                   /\ cl_call (Probe.client [] (Ok Stub.fromWei))
                        (mkCall "orders" [PInt 1]) 5
                      = (r, w_node (snd (get_order (Probe.client [] (Ok Stub.fromWei)) 1
                                           (@start (Probe.client [] (Ok Stub.fromWei)) 5))))).
Proof.
  assert (Hin : In (Call (mkCall "orders" [PInt 1]) (Ok []))
     (w_trace (snd (get_order (Probe.client [] (Ok Stub.fromWei)) 1
                      (@start (Probe.client [] (Ok Stub.fromWei)) 5)))))
    by (right; left; reflexivity).
  split; [exact Hin |].
  exact (get_order_only_reads (Probe.client [] (Ok Stub.fromWei)) 1 5 _ Hin).
Defined.

(** ** The ABI file *)

Lemma member_last (l : list (string * pyval)) (key : string) (v : pyval) :
  member (l ++ [(key, v)]) key = Some v.
Proof.
  unfold member. rewrite fold_left_app. cbn. rewrite String.eqb_refl. reflexivity.
Qed.

Lemma member_absent (l : list (string * pyval)) (key : string) (found : option pyval) :
  (forall kv, In kv l -> fst kv <> key) ->
  fold_left (fun found kv => if String.eqb (fst kv) key then Some (snd kv) else found)
            l found = found.
Proof.
  revert found. induction l as [| kv l IH]; intros found H; [reflexivity |].
  cbn. destruct (String.eqb_spec (fst kv) key) as [E | _].
  - exfalso. apply (H kv); [left; reflexivity | exact E].
  - apply IH. intros kv' Hin. apply H. right. exact Hin.
Qed.

(** X16. The ABI file may hold the ABI array itself or an artifact
    object with an "abi" member: both give the same contract ABI,
    whatever other members the object has before it. *)
Theorem abi_array_or_artifact (abi : list pyval) (others : list (string * pyval)) :
  contract_abi (PList abi) = Ok (PList abi)
  /\ contract_abi (PDict (others ++ [("abi", PList abi)])) = contract_abi (PList abi).
Proof.
  split; [reflexivity |]. cbn [contract_abi]. rewrite member_last. reflexivity.
Qed.


